(** * PersistentSSMSession: a shallow embedding of [tools/session.py]

    The session object keeps a working directory, an ordered dictionary of
    environment variables and a command history, and drives a stateless
    remote executor (AWS SSM [send_command] / [get_command_invocation]).

    Conventions of the embedding:
    - Python [str] values are [string]s; a character is one code point
      below 256.
    - the remote service is abstract: a state type and two fallible
      operations; every call leaves an event in a chronological trace, as
      do [time.sleep] and [print];
    - a Python exception is [Raise msg], where [msg] is [str(e)]. *)

From Stdlib Require Import String Ascii List ZArith Lia Bool Arith.
Import ListNotations.
Open Scope string_scope.

(** ** Python string primitives *)

Module Py.

(** [str.isspace] on one code point below 256: TAB, LF, VT, FF, CR,
    FS, GS, RS, US, SPACE, NEL and NBSP. *)
Definition isspace (c : ascii) : bool :=
  let n := nat_of_ascii c in
  (((9 <=? n) && (n <=? 13)) || ((28 <=? n) && (n <=? 32))
   || (n =? 133) || (n =? 160))%nat.

Fixpoint lstrip (s : string) : string :=
  match s with
  | String c s' => if isspace c then lstrip s' else s
  | EmptyString => EmptyString
  end.

Fixpoint rstrip (s : string) : string :=
  match s with
  | String c s' =>
      match rstrip s' with
      | EmptyString => if isspace c then EmptyString else String c EmptyString
      | r => String c r
      end
  | EmptyString => EmptyString
  end.

(** [s.strip()] *)
Definition strip (s : string) : string := rstrip (lstrip s).

(** [s.startswith(p)] *)
Definition startswith (s p : string) : bool := String.prefix p s.

(** [s[n:]] for [n >= 0] *)
Fixpoint slice_from (n : nat) (s : string) : string :=
  match n, s with
  | S k, String _ s' => slice_from k s'
  | _, _ => s
  end.

(** [sub in s] *)
Fixpoint contains (sub s : string) : bool :=
  String.prefix sub s ||
  match s with
  | String _ s' => contains sub s'
  | EmptyString => false
  end.

(** [s.partition(sep)] when [sep] occurs: the text before and after the
    leftmost occurrence. *)
Fixpoint cut (sep s : string) : option (string * string) :=
  if String.prefix sep s then Some (EmptyString, slice_from (String.length sep) s)
  else match s with
       | String c s' =>
           match cut sep s' with
           | Some (a, b) => Some (String c a, b)
           | None => None
           end
       | EmptyString => None
       end.

(** [s.split(sep)] for a non-empty [sep]: cut at the leftmost occurrence and
    go on with the rest.  Each cut consumes at least one character, so
    [String.length s] rounds are enough. *)
Fixpoint split_rounds (n : nat) (sep s : string) : list string :=
  match n with
  | O => [s]
  | S k =>
      match cut sep s with
      | Some (a, b) => a :: split_rounds k sep b
      | None => [s]
      end
  end.

Definition split (sep s : string) : list string :=
  split_rounds (String.length s) sep s.

(** [s.split(sep, 1)] *)
Definition split1 (sep s : string) : list string :=
  match cut sep s with
  | Some (a, b) => [a; b]
  | None => [s]
  end.

(** [sep.join(l)] *)
Definition join (sep : string) (l : list string) : string := String.concat sep l.

(** [bool(s)]: a string is truthy when it is not empty. *)
Definition truthy (s : string) : bool :=
  match s with EmptyString => false | _ => true end.

End Py.

(** ** The remote executor and the machine state *)

(** Outcome of a Python call: a value, or an exception carrying [str(e)]. *)
Inductive Res (A : Type) : Type :=
| Ok (a : A)
| Raise (e : string).
Arguments Ok {A} a.
Arguments Raise {A} e.

(** The two keys read from a [get_command_invocation] response. *)
Record Invocation : Type := {
  Status : string;
  StandardOutputContent : string
}.

(** The SSM client seen from the session: [submit] is boto3's
    [send_command] on the configured instance with one shell command and
    yields the command id, [fetch] is [get_command_invocation] on a command
    id.  Both may raise, both may change the state of the service. *)
Class RemoteExecutor (R : Type) : Type := {
  submit : string -> R -> Res string * R;
  fetch : string -> R -> Res Invocation * R
}.

(** What the process does to the outside world, in order. *)
Inductive Event : Type :=
| Dispatched (commands : string)
| Queried (command_id : string)
| Slept (seconds : Z)
| Printed (line : string).

(** The state variables of [PersistentSSMSession] ([session_id] is set to
    [None] and never used).  [environment_vars] is a Python [dict]: keys are
    unique and keep their insertion order. *)
Record Session : Type := {
  current_directory : string;
  environment_vars : list (string * string);
  command_history : list string
}.

Record Machine (R : Type) : Type := {
  self : Session;
  ssm_client : R;
  trace : list Event
}.
Arguments self {R} _.
Arguments ssm_client {R} _.
Arguments trace {R} _.

(** [d[k] = v] *)
Fixpoint dict_set (k v : string) (d : list (string * string)) : list (string * string) :=
  match d with
  | [] => [(k, v)]
  | (k', v') :: d' =>
      if String.eqb k' k then (k, v) :: d' else (k', v') :: dict_set k v d'
  end.

(** [d.get(k)] *)
Fixpoint dict_get (k : string) (d : list (string * string)) : option string :=
  match d with
  | [] => None
  | (k', v') :: d' => if String.eqb k' k then Some v' else dict_get k d'
  end.

(** [l[-n:]] *)
Definition last_n {A : Type} (n : nat) (l : list A) : list A :=
  skipn (List.length l - n) l.

Definition newline : string := String (ascii_of_nat 10) EmptyString.

(** ** A state and exception monad over the machine *)

Definition M (R A : Type) : Type := Machine R -> Res A * Machine R.

Definition ret {R A : Type} (a : A) : M R A := fun m => (Ok a, m).

Definition bind {R A B : Type} (c : M R A) (k : A -> M R B) : M R B :=
  fun m =>
    match c m with
    | (Ok a, m') => k a m'
    | (Raise e, m') => (Raise e, m')
    end.

(** [try: c  except Exception as e: h e] *)
Definition try_except {R A : Type} (c : M R A) (h : string -> M R A) : M R A :=
  fun m =>
    match c m with
    | (Ok a, m') => (Ok a, m')
    | (Raise e, m') => h e m'
    end.

Declare Scope py_scope.
Delimit Scope py_scope with py.
Notation "x <- c ;; k" := (bind c (fun x => k))
  (at level 61, c at next level, right associativity) : py_scope.
Notation "c ;; k" := (bind c (fun _ => k))
  (at level 61, right associativity) : py_scope.
Open Scope py_scope.

Definition get_self {R : Type} : M R Session := fun m => (Ok (self m), m).

Definition put_self {R : Type} (s : Session) : M R unit :=
  fun m => (Ok tt, {| self := s; ssm_client := ssm_client m; trace := trace m |}).

Definition emit {R : Type} (e : Event) : M R unit :=
  fun m => (Ok tt, {| self := self m; ssm_client := ssm_client m; trace := trace m ++ [e] |}).

Definition time_sleep {R : Type} (seconds : Z) : M R unit := emit (Slept seconds).

Definition print {R : Type} (line : string) : M R unit := emit (Printed line).

(** [self.ssm_client.send_command(..., Parameters={"commands": [commands]})]
    followed by [response["Command"]["CommandId"]]. *)
Definition send_command {R : Type} `{RemoteExecutor R} (commands : string) : M R string :=
  fun m =>
    let (r, c) := submit commands (ssm_client m) in
    (r, {| self := self m; ssm_client := c; trace := trace m ++ [Dispatched commands] |}).

(** [self.ssm_client.get_command_invocation(CommandId=command_id, ...)] *)
Definition get_command_invocation {R : Type} `{RemoteExecutor R} (command_id : string)
  : M R Invocation :=
  fun m =>
    let (r, c) := fetch command_id (ssm_client m) in
    (r, {| self := self m; ssm_client := c; trace := trace m ++ [Queried command_id] |}).

Definition set_current_directory {R : Type} (d : string) : M R unit :=
  s <- get_self ;;
  put_self {| current_directory := d;
              environment_vars := environment_vars s;
              command_history := command_history s |}.

Definition set_environment_var {R : Type} (k v : string) : M R unit :=
  s <- get_self ;;
  put_self {| current_directory := current_directory s;
              environment_vars := dict_set k v (environment_vars s);
              command_history := command_history s |}.

Definition history_append {R : Type} (command : string) : M R unit :=
  s <- get_self ;;
  put_self {| current_directory := current_directory s;
              environment_vars := environment_vars s;
              command_history := command_history s ++ [command] |}.

(** ** The session *)

Section SessionCode.

Context {R : Type} `{RemoteExecutor R}.

(** *** [_wait_for_command] *)

Definition is_terminal (status : string) : bool :=
  existsb (String.eqb status) ["Success"; "Failed"; "Cancelled"; "TimedOut"].

(** [min(sleep_time * (2**attempt), 15)] *)
Definition backoff (sleep_time : Z) (attempt : nat) : Z :=
  Z.min (sleep_time * 2 ^ Z.of_nat attempt) 15.

(** One pass through the body of the [for] loop; [true] stands for the
    [return True] in the middle of the [try] block. *)
Definition wait_attempt (command_id : string) (sleep_time : Z) (attempt : nat) : M R bool :=
  try_except
    (output <- get_command_invocation command_id ;;
     if is_terminal (Status output) then ret true
     else time_sleep (backoff sleep_time attempt) ;; ret false)
    (fun _ => time_sleep sleep_time ;; ret false).

(** The iterations [attempt, attempt + 1, ...] of
    [for attempt in range(max_retries)], [remaining] of them left, and the
    code after the loop. *)
Fixpoint wait_loop (command_id : string) (sleep_time : Z) (remaining attempt : nat)
  : M R bool :=
  match remaining with
  | O =>
      print ("Command " ++ command_id ++ " did not complete in the expected time") ;;
      ret false
  | S remaining' =>
      returned <- wait_attempt command_id sleep_time attempt ;;
      if returned then ret true
      else wait_loop command_id sleep_time remaining' (S attempt)
  end.

Definition _wait_for_command_with (command_id : string) (max_retries : nat) (sleep_time : Z)
  : M R bool :=
  wait_loop command_id sleep_time max_retries 0.

(** Every caller relies on the defaults [max_retries=10, sleep_time=3]. *)
Definition _wait_for_command (command_id : string) : M R bool :=
  _wait_for_command_with command_id 10 3.

(** *** [initialize_directory] and [__init__] *)

Definition initialize_directory : M R unit :=
  try_except
    (command_id <- send_command "echo $HOME" ;;
     time_sleep 2 ;;
     output <- get_command_invocation command_id ;;
     let home_dir := Py.strip (StandardOutputContent output) in
     if Py.truthy home_dir then
       set_current_directory home_dir ;;
       print ("Session initialized at home directory: " ++ home_dir)
     else
       s <- get_self ;;
       print ("Using default home directory: " ++ current_directory s))
    (fun e =>
       print ("Error initializing directory: " ++ e) ;;
       s <- get_self ;;
       print ("Using default home directory: " ++ current_directory s)).

Definition default_session : Session :=
  {| current_directory := "/home/ec2-user";
     environment_vars := [];
     command_history := [] |}.

Definition new_session (client : R) : Machine R :=
  snd (initialize_directory
         {| self := default_session; ssm_client := client; trace := [] |}).

(** *** [_handle_cd_command] *)

Definition cd_dir_path (command : string) : string :=
  Py.strip (Py.slice_from 3 (Py.strip command)).

Definition cd_check_cmd (cwd command : string) : string :=
  let dir_path := cd_dir_path command in
  if negb (Py.truthy dir_path) then "cd && pwd"
  else if Py.startswith dir_path "/" then
    "if [ -d '" ++ dir_path ++ "' ]; then cd '" ++ dir_path
      ++ "' && pwd; else echo 'Directory not found'; fi"
  else
    "if [ -d '" ++ cwd ++ "/" ++ dir_path ++ "' ] || [ -d '" ++ dir_path
      ++ "' ]; then cd '" ++ cwd ++ "' && cd '" ++ dir_path
      ++ "' && pwd; else echo 'Directory not found'; fi".

Definition _handle_cd_command (command : string) : M R string :=
  s <- get_self ;;
  let check_cmd := cd_check_cmd (current_directory s) command in
  command_id <- send_command check_cmd ;;
  _wait_for_command command_id ;;
  output <- get_command_invocation command_id ;;
  let result := Py.strip (StandardOutputContent output) in
  if negb (String.eqb result "Directory not found") then
    set_current_directory result ;;
    history_append command ;;
    s' <- get_self ;;
    ret ("Changed to directory: " ++ current_directory s')
  else ret "Directory not found".

(** *** [_handle_env_var_setting] *)

(** [var_name, var_value = parts]: unpacking anything but two values
    raises [ValueError]. *)
Definition unpack2 (parts : list string) : M R (string * string) :=
  match parts with
  | [a; b] => ret (a, b)
  | [] | [_] =>
      fun m =>
        (Raise ("not enough values to unpack (expected 2, got "
                  ++ (match parts with [] => "0" | _ => "1" end) ++ ")"), m)
  | _ => fun m => (Raise "too many values to unpack (expected 2)", m)
  end.

(** [f"cd '{self.current_directory}' && {var_name}={var_value} && echo 'Set {var_name}={var_value}'"] *)
Definition env_full_command (cwd var_name var_value : string) : string :=
  "cd '" ++ cwd ++ "' && " ++ var_name ++ "=" ++ var_value
    ++ " && echo 'Set " ++ var_name ++ "=" ++ var_value ++ "'".

Definition _handle_env_var_setting (command : string) : M R string :=
  try_except
    (nv <- unpack2 (Py.split1 "=" (Py.strip command)) ;;
     let var_name := fst nv in
     let var_value := snd nv in
     set_environment_var var_name var_value ;;
     s <- get_self ;;
     let full_command := env_full_command (current_directory s) var_name var_value in
     command_id <- send_command full_command ;;
     _wait_for_command command_id ;;
     history_append command ;;
     ret ("Set environment variable " ++ var_name ++ "=" ++ var_value))
    (fun e => ret ("Error setting environment variable: " ++ e)).

(** *** [_execute_normal_command] *)

(** [" ".join([f"{k}='{v}'" for k, v in self.environment_vars.items()])] *)
Definition render_env_vars (vars : list (string * string)) : string :=
  Py.join " " (map (fun kv => fst kv ++ "='" ++ snd kv ++ "'") vars).

Definition env_prefix (vars : list (string * string)) : string :=
  let env_vars := render_env_vars vars in
  if Py.truthy env_vars then env_vars ++ " " else "".

Definition normal_full_command (s : Session) (command : string) : string :=
  "cd '" ++ current_directory s ++ "' && " ++ env_prefix (environment_vars s) ++ command.

Definition _execute_normal_command (command : string) : M R string :=
  s <- get_self ;;
  let full_command := normal_full_command s command in
  try_except
    (command_id <- send_command full_command ;;
     _wait_for_command command_id ;;
     output <- get_command_invocation command_id ;;
     history_append command ;;
     ret (StandardOutputContent output))
    (fun e => ret ("Error executing command: " ++ e)).

(** *** [execute_command] *)

(** The three arms of the [if]/[elif]/[else] chain in the loop body. *)
Inductive CommandKind : Type :=
| DirectoryChange
| VariableAssignment
| GeneralExecution.

Definition classify (cmd : string) : CommandKind :=
  if Py.startswith cmd "cd " then DirectoryChange
  else if Py.contains "=" cmd
          && negb (Py.startswith cmd "export " || Py.startswith cmd "echo "
                   || Py.startswith cmd "printf ")
  then VariableAssignment
  else GeneralExecution.

Definition handle (cmd : string) : M R string :=
  match classify cmd with
  | DirectoryChange => _handle_cd_command cmd
  | VariableAssignment => _handle_env_var_setting cmd
  | GeneralExecution => _execute_normal_command cmd
  end.

(** [[cmd.strip() for cmd in command.split("&&") if cmd.strip()]] *)
Definition atomic_commands (command : string) : list string :=
  map Py.strip (filter (fun cmd => Py.truthy (Py.strip cmd)) (Py.split "&&" command)).

(** [for cmd in commands: results.append(...)] *)
Fixpoint run_commands (commands results : list string) : M R (list string) :=
  match commands with
  | [] => ret results
  | cmd :: rest =>
      r <- handle cmd ;;
      run_commands rest (results ++ [r])
  end.

Definition execute_command (command : string) : M R string :=
  results <- run_commands (atomic_commands command) [] ;;
  ret (Py.join newline results).

(** *** [get_state] *)

Record StateView : Type := {
  view_current_directory : string;
  view_environment_variables : list (string * string);
  view_command_history : list string
}.

Definition get_state : M R StateView :=
  s <- get_self ;;
  ret {| view_current_directory := current_directory s;
         view_environment_variables := environment_vars s;
         view_command_history :=
           match command_history s with
           | [] => []
           | _ => last_n 10 (command_history s)
           end |}.

End SessionCode.

(** ** A scripted remote executor

    A remote whose answers are fixed in advance: the service answers the
    n-th submission with the n-th entry of [submissions] and the n-th status
    query with the n-th entry of [invocations], and fails once a list is
    used up. *)

Record Scripted : Type := {
  submissions : list (Res string);
  invocations : list (Res Invocation)
}.

#[export] Instance scripted_remote : RemoteExecutor Scripted := {
  submit _ r :=
    match submissions r with
    | a :: rest => (a, {| submissions := rest; invocations := invocations r |})
    | [] => (Raise "EndpointConnectionError", r)
    end;
  fetch _ r :=
    match invocations r with
    | a :: rest => (a, {| submissions := submissions r; invocations := rest |})
    | [] => (Raise "EndpointConnectionError", r)
    end
}.

Definition invocation (status stdout : string) : Res Invocation :=
  Ok {| Status := status; StandardOutputContent := stdout |}.

Definition machine_at (s : Session) (r : Scripted) : Machine Scripted :=
  {| self := s; ssm_client := r; trace := [] |}.

(** ** Vocabulary of the statements *)

(** [c in s] for one character. *)
Fixpoint has_char (c : ascii) (s : string) : bool :=
  match s with
  | String d s' => Ascii.eqb c d || has_char c s'
  | EmptyString => false
  end.

(** A string of whitespace only (possibly empty). *)
Fixpoint blank (s : string) : bool :=
  match s with
  | String c s' => Py.isspace c && blank s'
  | EmptyString => true
  end.

Section Observation.

Context {R : Type} `{RemoteExecutor R}.

(** The answers of the service to the next [n] status queries. *)
Fixpoint status_answers (command_id : string) (n : nat) (c : R) : list (Res Invocation) :=
  match n with
  | O => []
  | S k => fst (fetch command_id c) :: status_answers command_id k (snd (fetch command_id c))
  end.

(** The service after [n] status queries. *)
Fixpoint client_after (command_id : string) (n : nat) (c : R) : R :=
  match n with
  | O => c
  | S k => client_after command_id k (snd (fetch command_id c))
  end.

(** An answer that ends the polling. *)
Definition terminal_answer (a : Res Invocation) : bool :=
  match a with
  | Ok output => is_terminal (Status output)
  | Raise _ => false
  end.

(** The pause after an answer that does not end the polling. *)
Definition delay_after (sleep_time : Z) (attempt : nat) (a : Res Invocation) : Z :=
  match a with
  | Ok _ => backoff sleep_time attempt
  | Raise _ => sleep_time
  end.

(** A query and a pause for each of [answers], seen from attempt number
    [attempt] on. *)
Fixpoint waiting_events (command_id : string) (sleep_time : Z) (attempt : nat)
    (answers : list (Res Invocation)) : list Event :=
  match answers with
  | [] => []
  | a :: rest =>
      Queried command_id :: Slept (delay_after sleep_time attempt a)
        :: waiting_events command_id sleep_time (S attempt) rest
  end.

Definition pending (answers : list (Res Invocation)) : bool :=
  forallb (fun a => negb (terminal_answer a)) answers.

End Observation.

Definition sentinel : string := "Directory not found".

(** A result of [_handle_env_var_setting] that reports an error. *)
Definition env_error_result (result : Res string) : Prop :=
  exists cause, result = Ok ("Error setting environment variable: " ++ cause).

Section Sequencing.

Context {R : Type} `{RemoteExecutor R}.

(** [runs cmds m results m']: handling [cmds] one after the other from
    machine [m], each from the machine the previous one left, gives
    [results] in the same order and ends in [m']. *)
Inductive runs : list string -> Machine R -> list string -> Machine R -> Prop :=
| runs_nil (m : Machine R) : runs [] m [] m
| runs_cons (cmd : string) (rest : list string) (m m1 m2 : Machine R)
    (r : string) (rs : list string) :
    handle cmd m = (Ok r, m1) ->
    runs rest m1 rs m2 ->
    runs (cmd :: rest) m (r :: rs) m2.

End Sequencing.

(** A fresh session in front of a service that accepts one submission as
    command [c-1], reports it finished at the first status query and hands
    out [stdout] as its captured output. *)
Definition probe_machine (stdout : string) : Machine Scripted :=
  machine_at default_session
    {| submissions := [Ok "c-1"];
       invocations := [invocation "Success" stdout; invocation "Success" stdout] |}.

(** The classification rules as the design document words them: a
    directory change is a command that starts with [cd ] or is exactly
    [cd]; the other two rules follow in order. *)
Definition classify_as_specified (cmd : string) : CommandKind :=
  if Py.startswith cmd "cd " || String.eqb cmd "cd" then DirectoryChange
  else if Py.contains "=" cmd
          && negb (Py.startswith cmd "export " || Py.startswith cmd "echo "
                   || Py.startswith cmd "printf ")
  then VariableAssignment
  else GeneralExecution.

(** A fresh session in front of a service that refuses the first submission
    and then works: the second submission is accepted as [c-2], finished at
    the first status query, with [stdout] as its output. *)
Definition flaky_machine (stdout : string) : Machine Scripted :=
  machine_at default_session
    {| submissions := [Raise "EndpointConnectionError"; Ok "c-2"];
       invocations := [invocation "Success" stdout; invocation "Success" stdout] |}.

(** ** Measures on traces *)

(** Number of remote submissions in a trace. *)
Fixpoint count_dispatched (events : list Event) : nat :=
  match events with
  | Dispatched _ :: rest => S (count_dispatched rest)
  | _ :: rest => count_dispatched rest
  | [] => 0
  end.

(** Number of status queries in a trace. *)
Fixpoint count_queried (events : list Event) : nat :=
  match events with
  | Queried _ :: rest => S (count_queried rest)
  | _ :: rest => count_queried rest
  | [] => 0
  end.

(** Seconds spent in [time.sleep] along a trace. *)
Fixpoint total_slept (events : list Event) : Z :=
  match events with
  | Slept seconds :: rest => (seconds + total_slept rest)%Z
  | _ :: rest => total_slept rest
  | [] => 0%Z
  end.

(** [s] ends with the character [c]. *)
Fixpoint ends_with_char (c : ascii) (s : string) : bool :=
  match s with
  | String d EmptyString => Ascii.eqb c d
  | String _ s' => ends_with_char c s'
  | EmptyString => false
  end.

Section Construction.

Context {R : Type} `{RemoteExecutor R}.

(** The directory [initialize_directory] ends with: the trimmed answer to
    [echo $HOME] when both remote calls go through and the answer is not
    blank, the directory it started with otherwise. *)
Definition discovered_directory (m : Machine R) : string :=
  match submit "echo $HOME" (ssm_client m) with
  | (Ok command_id, c) =>
      match fetch command_id c with
      | (Ok output, _) =>
          if Py.truthy (Py.strip (StandardOutputContent output))
          then Py.strip (StandardOutputContent output)
          else current_directory (self m)
      | (Raise _, _) => current_directory (self m)
      end
  | (Raise _, _) => current_directory (self m)
  end.

End Construction.

(** The longest the loop of [_wait_for_command] can sleep from attempt
    number [attempt] on with [remaining] attempts left: after each attempt
    either the backoff or the flat pause. *)
Fixpoint sleep_budget (sleep_time : Z) (remaining attempt : nat) : Z :=
  match remaining with
  | O => 0%Z
  | S k => (Z.max sleep_time (backoff sleep_time attempt)
            + sleep_budget sleep_time k (S attempt))%Z
  end.

(** ** How a compound command is taken apart and run *)






Section InTurn.

Context {R : Type} `{RemoteExecutor R}.



End InTurn.


(** * Facts about the string primitives *)

Lemma app_empty_r (s : string) : s ++ "" = s.
Proof. induction s as [|c s IH]; simpl; [reflexivity | now rewrite IH]. Qed.

Lemma app_assoc_str (a b c : string) : (a ++ b) ++ c = a ++ b ++ c.
Proof. induction a as [|x a IH]; simpl; [reflexivity | now rewrite IH]. Qed.

Lemma length_app_str (a b : string) :
  String.length (a ++ b) = String.length a + String.length b.
Proof. induction a as [|x a IH]; simpl; [reflexivity | now rewrite IH]. Qed.

Lemma prefix_cons (a b : ascii) (p s : string) :
  String.prefix (String a p) (String b s) = Ascii.eqb a b && String.prefix p s.
Proof.
  simpl. destruct (ascii_dec a b) as [->|n].
  - now rewrite Ascii.eqb_refl.
  - apply Ascii.eqb_neq in n. now rewrite n.
Qed.

Lemma prefix_nil_r (p : string) : p <> "" -> String.prefix p "" = false.
Proof. destruct p; [congruence | reflexivity]. Qed.

Lemma prefix_app (p s : string) : String.prefix p (p ++ s) = true.
Proof.
  induction p as [|c p IH]; [destruct s; reflexivity|].
  cbn [append]. rewrite prefix_cons, Ascii.eqb_refl. exact IH.
Qed.

Lemma prefix_app_r (p a x : string) :
  String.prefix p a = true -> String.prefix p (a ++ x) = true.
Proof.
  revert a. induction p as [|c p IH]; intros a Hp.
  - destruct (a ++ x); reflexivity.
  - destruct a as [|d a]; [discriminate|].
    cbn [append]. rewrite prefix_cons in *.
    apply andb_true_iff in Hp as [-> Hp]. now rewrite (IH _ Hp).
Qed.

Lemma prefix_slice (p s : string) :
  String.prefix p s = true -> p ++ Py.slice_from (String.length p) s = s.
Proof.
  revert s. induction p as [|c p IH]; intros s Hp; [reflexivity|].
  destruct s as [|d s]; [discriminate|].
  rewrite prefix_cons in Hp. apply andb_true_iff in Hp as [Hc Hp].
  apply Ascii.eqb_eq in Hc. subst d. simpl. now rewrite (IH _ Hp).
Qed.

Lemma slice_from_app (p s : string) : Py.slice_from (String.length p) (p ++ s) = s.
Proof. induction p as [|c p IH]; simpl; [destruct s; reflexivity | exact IH]. Qed.

Lemma slice_from_length (n : nat) (s : string) :
  String.length (Py.slice_from n s) = String.length s - n.
Proof.
  revert s. induction n as [|n IH]; intros [|c s]; simpl; try reflexivity.
  apply IH.
Qed.

(** ** [cut] *)

Lemma cut_unfold (sep s : string) :
  Py.cut sep s =
  if String.prefix sep s then Some ("", Py.slice_from (String.length sep) s)
  else match s with
       | String c s' =>
           match Py.cut sep s' with
           | Some (a, b) => Some (String c a, b)
           | None => None
           end
       | EmptyString => None
       end.
Proof. destruct s; reflexivity. Qed.

Lemma cut_nil (sep : string) : sep <> "" -> Py.cut sep "" = None.
Proof. intros Hsep. rewrite cut_unfold. now rewrite prefix_nil_r. Qed.

Lemma cut_some (sep s a b : string) :
  Py.cut sep s = Some (a, b) -> s = a ++ sep ++ b.
Proof.
  revert a. induction s as [|c s IH]; intros a; rewrite cut_unfold.
  - destruct (String.prefix sep "") eqn:E; [|discriminate].
    intros [= <- <-]. simpl. symmetry. now apply prefix_slice.
  - destruct (String.prefix sep (String c s)) eqn:E.
    + intros [= <- <-]. simpl. symmetry. now apply prefix_slice.
    + destruct (Py.cut sep s) as [[a' b']|]; [|discriminate].
      intros [= <- <-]. simpl. f_equal. now apply IH.
Qed.

Lemma cut_none (sep s : string) :
  Py.cut sep s = None <-> Py.contains sep s = false.
Proof.
  induction s as [|c s IH]; rewrite cut_unfold; cbn [Py.contains].
  - destruct (String.prefix sep ""); simpl; split; congruence.
  - destruct (String.prefix sep (String c s)); simpl; [split; congruence|].
    destruct (Py.cut sep s) as [[a b]|].
    + split; [discriminate|]. intros E. apply IH in E. discriminate.
    + split; [|reflexivity]. intros _. now apply IH.
Qed.

Lemma cut_when_contains (sep s : string) :
  Py.contains sep s = true -> exists a b, Py.cut sep s = Some (a, b).
Proof.
  intros Hc. destruct (Py.cut sep s) as [[a b]|] eqn:E; [eauto|].
  apply cut_none in E. congruence.
Qed.

Lemma cut_shorter (sep s a b : string) :
  sep <> "" -> Py.cut sep s = Some (a, b) -> String.length b < String.length s.
Proof.
  intros Hsep Hcut. apply cut_some in Hcut. subst s.
  rewrite !length_app_str. destruct sep; [congruence|]. simpl. lia.
Qed.

(** Nothing before the cut contains the separator: the cut is leftmost. *)
Lemma cut_leftmost (sep s a b : string) :
  sep <> "" -> Py.cut sep s = Some (a, b) -> Py.contains sep a = false.
Proof.
  intros Hsep. revert a. induction s as [|c s IH]; intros a; rewrite cut_unfold.
  - destruct (String.prefix sep ""); [|discriminate].
    intros [= <- <-]. cbn [Py.contains]. now rewrite prefix_nil_r.
  - destruct (String.prefix sep (String c s)) eqn:E.
    + intros [= <- <-]. cbn [Py.contains]. now rewrite prefix_nil_r.
    + destruct (Py.cut sep s) as [[a' b']|] eqn:Ec; [|discriminate].
      intros [= <- <-]. cbn [Py.contains]. rewrite (IH _ eq_refl), orb_false_r.
      destruct (String.prefix sep (String c a')) eqn:Ep; [|reflexivity].
      apply cut_some in Ec. subst s.
      apply (prefix_app_r _ _ (sep ++ b')) in Ep. cbn [append] in Ep. congruence.
Qed.

(** ** [split] and [join] *)

Lemma split_rounds_enough (sep : string) :
  sep <> "" ->
  forall n m s, String.length s <= n -> String.length s <= m ->
    Py.split_rounds n sep s = Py.split_rounds m sep s.
Proof.
  intros Hsep. induction n as [|n IH]; intros m s Hn Hm.
  - destruct s; [|simpl in Hn; lia].
    destruct m; cbn [Py.split_rounds]; [reflexivity|].
    now rewrite cut_nil.
  - destruct m as [|m].
    + destruct s; [|simpl in Hm; lia]. cbn [Py.split_rounds].
      now rewrite cut_nil.
    + cbn [Py.split_rounds].
      destruct (Py.cut sep s) as [[a b]|] eqn:E; [|reflexivity].
      f_equal. pose proof (cut_shorter _ _ _ _ Hsep E). apply IH; lia.
Qed.

Lemma split_unfold (sep s : string) :
  sep <> "" ->
  Py.split sep s =
  match Py.cut sep s with
  | Some (a, b) => a :: Py.split sep b
  | None => [s]
  end.
Proof.
  intros Hsep. unfold Py.split. destruct s as [|c s].
  - cbn [String.length Py.split_rounds]. now rewrite cut_nil.
  - cbn [String.length Py.split_rounds].
    destruct (Py.cut sep (String c s)) as [[a b]|] eqn:E; [|reflexivity].
    f_equal. pose proof (cut_shorter _ _ _ _ Hsep E) as Hlt. simpl in Hlt.
    apply split_rounds_enough; [assumption | lia | lia].
Qed.

Lemma join_cons (sep a : string) (l : list string) :
  l <> [] -> Py.join sep (a :: l) = a ++ sep ++ Py.join sep l.
Proof. destruct l; [congruence | reflexivity]. Qed.



(** No piece contains the separator. *)
Lemma split_pieces_clean (sep s : string) :
  sep <> "" -> Forall (fun piece => Py.contains sep piece = false) (Py.split sep s).
Proof.
  intros Hsep.
  assert (G : forall n s, String.length s <= n ->
            Forall (fun piece => Py.contains sep piece = false) (Py.split sep s)).
  { induction n as [|n IH]; intros t Ht; rewrite split_unfold by assumption.
    - destruct t; [|simpl in Ht; lia]. rewrite cut_nil by assumption.
      repeat constructor. cbn [Py.contains]. now rewrite prefix_nil_r.
    - destruct (Py.cut sep t) as [[a b]|] eqn:E.
      + constructor; [now apply (cut_leftmost sep t a b)|].
        pose proof (cut_shorter _ _ _ _ Hsep E). apply IH. lia.
      + repeat constructor. now apply cut_none. }
  now apply (G (String.length s)).
Qed.
(** ** Separators that cannot start inside a piece *)

Lemma cut_fresh (h : ascii) (t a b : string) :
  has_char h a = false ->
  Py.cut (String h t) (a ++ String h t ++ b) = Some (a, b).
Proof.
  set (sep := String h t). set (rest := sep ++ b).
  induction a as [|c a IH]; intros Hf; rewrite cut_unfold.
  - change ("" ++ rest) with (sep ++ b).
    rewrite prefix_app. now rewrite slice_from_app.
  - cbn [has_char] in Hf. apply orb_false_iff in Hf as [Hc Hf].
    change (String c a ++ rest) with (String c (a ++ rest)).
    unfold sep at 1. rewrite prefix_cons, Hc. cbn [andb].
    now rewrite (IH Hf).
Qed.

Lemma cut_fresh_none (h : ascii) (t a : string) :
  has_char h a = false -> Py.cut (String h t) a = None.
Proof.
  induction a as [|c a IH]; intros Hf; rewrite cut_unfold.
  - reflexivity.
  - cbn [has_char] in Hf. apply orb_false_iff in Hf as [Hc Hf].
    rewrite prefix_cons, Hc. cbn [andb]. now rewrite (IH Hf).
Qed.

(** Splitting undoes joining when no piece holds the first character of the
    separator. *)
Lemma split_join_fresh (h : ascii) (t : string) (ws : list string) :
  Forall (fun w => has_char h w = false) ws -> ws <> [] ->
  Py.split (String h t) (Py.join (String h t) ws) = ws.
Proof.
  induction ws as [|w ws IH]; intros Hall Hne; [congruence|].
  inversion Hall as [|? ? Hw Hws]; subst.
  rewrite split_unfold by discriminate.
  destruct ws as [|w2 ws].
  - cbn [Py.join String.concat]. now rewrite cut_fresh_none.
  - rewrite join_cons by discriminate. rewrite cut_fresh by assumption.
    f_equal. apply IH; [assumption | discriminate].
Qed.

(** ** Whitespace *)

Lemma isspace_neq (c d : ascii) :
  Py.isspace c = false -> Py.isspace d = true -> Ascii.eqb c d = false.
Proof.
  intros Hc Hd. destruct (Ascii.eqb c d) eqn:E; [|reflexivity].
  apply Ascii.eqb_eq in E. congruence.
Qed.

Lemma blank_has_char (c : ascii) (s : string) :
  Py.isspace c = false -> blank s = true -> has_char c s = false.
Proof.
  intros Hc. induction s as [|d s IH]; intros Hb; [reflexivity|].
  cbn [blank] in Hb. apply andb_true_iff in Hb as [Hd Hb].
  cbn [has_char]. now rewrite (isspace_neq _ _ Hc Hd), IH.
Qed.

Lemma lstrip_blank (s : string) : blank s = true -> Py.lstrip s = "".
Proof.
  induction s as [|d s IH]; intros Hb; [reflexivity|].
  cbn [blank] in Hb. apply andb_true_iff in Hb as [Hd Hb].
  cbn [Py.lstrip]. rewrite Hd. now apply IH.
Qed.

Lemma strip_blank (s : string) : blank s = true -> Py.strip s = "".
Proof. intros Hb. unfold Py.strip. now rewrite lstrip_blank. Qed.

Lemma contains_char (c : ascii) (s : string) :
  Py.contains (String c "") s = has_char c s.
Proof.
  induction s as [|d s IH]; [reflexivity|].
  cbn [Py.contains has_char]. rewrite prefix_cons, IH.
  destruct s; cbn [String.prefix]; now rewrite andb_true_r.
Qed.

Lemma has_char_lstrip (c : ascii) (s : string) :
  Py.isspace c = false -> has_char c (Py.lstrip s) = has_char c s.
Proof.
  intros Hc. induction s as [|d s IH]; [reflexivity|].
  cbn [Py.lstrip]. destruct (Py.isspace d) eqn:Hd; [|reflexivity].
  cbn [has_char]. now rewrite (isspace_neq _ _ Hc Hd), IH.
Qed.

Lemma has_char_rstrip (c : ascii) (s : string) :
  Py.isspace c = false -> has_char c (Py.rstrip s) = has_char c s.
Proof.
  intros Hc. induction s as [|d s IH]; [reflexivity|].
  cbn [Py.rstrip has_char]. rewrite <- IH.
  destruct (Py.rstrip s) as [|e r].
  - destruct (Py.isspace d) eqn:Hd.
    + now rewrite (isspace_neq _ _ Hc Hd).
    + reflexivity.
  - reflexivity.
Qed.

Lemma has_char_strip (c : ascii) (s : string) :
  Py.isspace c = false -> has_char c (Py.strip s) = has_char c s.
Proof.
  intros Hc. unfold Py.strip. now rewrite has_char_rstrip, has_char_lstrip.
Qed.
(** * The completion poller *)

Section Poller.

Context {R : Type} `{RemoteExecutor R}.

Lemma wait_attempt_run (command_id : string) (sleep_time : Z) (attempt : nat) (m : Machine R) :
  wait_attempt command_id sleep_time attempt m =
  let a := fst (fetch command_id (ssm_client m)) in
  let c := snd (fetch command_id (ssm_client m)) in
  if terminal_answer a
  then (Ok true, {| self := self m; ssm_client := c;
                    trace := trace m ++ [Queried command_id] |})
  else (Ok false, {| self := self m; ssm_client := c;
                     trace := trace m ++ [Queried command_id;
                                          Slept (delay_after sleep_time attempt a)] |}).
Proof.
  unfold wait_attempt, try_except, bind, get_command_invocation, time_sleep, emit, ret.
  destruct (fetch command_id (ssm_client m)) as [[output|e] c];
    cbn [fst snd self ssm_client trace terminal_answer delay_after].
  - destruct (is_terminal (Status output));
      cbn [fst snd self ssm_client trace]; [reflexivity|].
    now rewrite <- app_assoc.
  - now rewrite <- app_assoc.
Qed.

Lemma wait_loop_terminal (command_id : string) (sleep_time : Z) :
  forall k remaining attempt (m : Machine R),
    k < remaining ->
    pending (firstn k (status_answers command_id remaining (ssm_client m))) = true ->
    terminal_answer (nth k (status_answers command_id remaining (ssm_client m)) (Raise ""))
      = true ->
    wait_loop command_id sleep_time remaining attempt m =
    (Ok true,
     {| self := self m;
        ssm_client := client_after command_id (S k) (ssm_client m);
        trace := trace m
                   ++ waiting_events command_id sleep_time attempt
                        (firstn k (status_answers command_id remaining (ssm_client m)))
                   ++ [Queried command_id] |}).
Proof.
  induction k as [|k IH]; intros remaining attempt m Hlt Hpend Hterm;
    (destruct remaining as [|remaining]; [lia|]);
    cbn [status_answers firstn nth pending forallb] in *;
    cbn [wait_loop]; unfold bind; rewrite wait_attempt_run; cbv zeta.
  - rewrite Hterm. reflexivity.
  - apply andb_true_iff in Hpend as [Ha Hpend].
    apply negb_true_iff in Ha. rewrite Ha.
    rewrite IH; cbn [self ssm_client trace]; try assumption; [|lia].
    cbn [waiting_events client_after]. rewrite <- app_assoc. reflexivity.
Qed.

Lemma wait_loop_exhausted (command_id : string) (sleep_time : Z) :
  forall remaining attempt (m : Machine R),
    pending (status_answers command_id remaining (ssm_client m)) = true ->
    wait_loop command_id sleep_time remaining attempt m =
    (Ok false,
     {| self := self m;
        ssm_client := client_after command_id remaining (ssm_client m);
        trace := trace m
                   ++ waiting_events command_id sleep_time attempt
                        (status_answers command_id remaining (ssm_client m))
                   ++ [Printed ("Command " ++ command_id
                                  ++ " did not complete in the expected time")] |}).
Proof.
  induction remaining as [|remaining IH]; intros attempt m Hpend.
  - reflexivity.
  - cbn [status_answers pending forallb] in *.
    apply andb_true_iff in Hpend as [Ha Hpend]. apply negb_true_iff in Ha.
    cbn [wait_loop]. unfold bind. rewrite wait_attempt_run. cbv zeta. rewrite Ha.
    rewrite IH; cbn [self ssm_client trace]; [|assumption].
    cbn [waiting_events client_after]. rewrite <- app_assoc. reflexivity.
Qed.

(** The poller never raises and never touches the session state. *)
Lemma wait_loop_total (command_id : string) (sleep_time : Z) :
  forall remaining attempt (m : Machine R),
    exists b m' events,
      wait_loop command_id sleep_time remaining attempt m = (Ok b, m')
      /\ self m' = self m /\ trace m' = (trace m ++ events)%list.
Proof.
  induction remaining as [|remaining IH]; intros attempt m.
  - eexists _, _, _. repeat split; reflexivity.
  - cbn [wait_loop]. unfold bind. rewrite wait_attempt_run. cbv zeta.
    destruct (terminal_answer _).
    + eexists _, _, _. repeat split; reflexivity.
    + edestruct IH as (b & m' & events & -> & Hs & Ht).
      eexists _, _, _. split; [reflexivity|]. split; [exact Hs|].
      rewrite Ht. cbn [trace]. rewrite <- app_assoc. reflexivity.
Qed.

Lemma wait_for_command_total (command_id : string) (m : Machine R) :
  exists b m' events,
    _wait_for_command command_id m = (Ok b, m')
    /\ self m' = self m /\ trace m' = (trace m ++ events)%list.
Proof. apply wait_loop_total. Qed.

Lemma backoff_monotone (sleep_time : Z) (attempt : nat) :
  (0 <= sleep_time)%Z ->
  (backoff sleep_time attempt <= backoff sleep_time (S attempt))%Z.
Proof.
  intros Hs. unfold backoff. rewrite Nat2Z.inj_succ, Z.pow_succ_r by lia.
  assert (0 < 2 ^ Z.of_nat attempt)%Z by (apply Z.pow_pos_nonneg; lia).
  apply Z.min_le_compat_r. nia.
Qed.

Lemma backoff_capped (sleep_time : Z) (attempt : nat) :
  (backoff sleep_time attempt <= 15)%Z.
Proof. unfold backoff. lia. Qed.

End Poller.

(** ** C7 *)

(** C7. With the answers the service gives to the next ten status queries:
    if the answer number [k] (counted from 0) is the first with a terminal
    status, [_wait_for_command] returns [True] right after that query, having
    paused after each earlier answer and not after this one; if none of the
    ten is terminal it returns [False] after ten queries.  The pause after
    a non-terminal status seen at attempt [a] is [min(3 * 2^a, 15)], it never
    decreases with [a] and never exceeds 15; the pause after a query that
    raised is the flat 3, and the loop goes on. The poller itself never
    raises and leaves the session state alone. *)
Theorem wait_for_command_polling
    {R : Type} `{RemoteExecutor R} (command_id : string) (m : Machine R) :
  let answers := status_answers command_id 10 (ssm_client m) in
  (forall k, k < 10 ->
     pending (firstn k answers) = true ->
     terminal_answer (nth k answers (Raise "")) = true ->
     _wait_for_command command_id m =
     (Ok true,
      {| self := self m;
         ssm_client := client_after command_id (S k) (ssm_client m);
         trace := trace m ++ waiting_events command_id 3 0 (firstn k answers)
                    ++ [Queried command_id] |}))
  /\ (pending answers = true ->
      _wait_for_command command_id m =
      (Ok false,
       {| self := self m;
          ssm_client := client_after command_id 10 (ssm_client m);
          trace := trace m ++ waiting_events command_id 3 0 answers
                     ++ [Printed ("Command " ++ command_id
                                    ++ " did not complete in the expected time")] |}))
  /\ (forall attempt output e,
        delay_after 3 attempt (Ok output) = Z.min (3 * 2 ^ Z.of_nat attempt) 15
        /\ delay_after 3 attempt (Raise e) = 3%Z)
  /\ (forall attempt, (backoff 3 attempt <= backoff 3 (S attempt) <= 15)%Z)
  /\ (exists b m', _wait_for_command command_id m = (Ok b, m') /\ self m' = self m).
Proof.
  cbv zeta. repeat split.
  - intros k Hk Hpend Hterm. now apply wait_loop_terminal.
  - intros Hpend. now apply wait_loop_exhausted.
  - apply backoff_monotone. lia.
  - apply backoff_capped.
  - destruct (wait_for_command_total command_id m) as (b & m' & events & E & Hs & _).
    eauto.
Qed.

(** The scenario of three answers [Pending, Pending, Success]: three
    queries, two pauses of 3 and 6 seconds. *)
Lemma wait_for_command_polling_witness :
  _wait_for_command "c-1"
    (machine_at default_session
       {| submissions := [];
          invocations := [invocation "Pending" ""; invocation "Pending" "";
                          invocation "Success" "ok"] |}) =
  (Ok true,
   {| self := default_session;
      ssm_client := {| submissions := []; invocations := [] |};
      trace := [Queried "c-1"; Slept 3; Queried "c-1"; Slept 6; Queried "c-1"] |}).
Proof.
  exact (proj1 (wait_for_command_polling "c-1"
                  (machine_at default_session
                     {| submissions := [];
                        invocations := [invocation "Pending" ""; invocation "Pending" "";
                                        invocation "Success" "ok"] |}))
               2 ltac:(lia) eq_refl eq_refl).
Defined.
(** * The handlers *)

Section Handlers.

Context {R : Type} `{RemoteExecutor R}.

Lemma send_command_run (commands : string) (m : Machine R) :
  send_command commands m =
  (fst (submit commands (ssm_client m)),
   {| self := self m;
      ssm_client := snd (submit commands (ssm_client m));
      trace := trace m ++ [Dispatched commands] |}).
Proof. unfold send_command. now destruct (submit commands (ssm_client m)). Qed.

Lemma get_command_invocation_run (command_id : string) (m : Machine R) :
  get_command_invocation command_id m =
  (fst (fetch command_id (ssm_client m)),
   {| self := self m;
      ssm_client := snd (fetch command_id (ssm_client m));
      trace := trace m ++ [Queried command_id] |}).
Proof. unfold get_command_invocation. now destruct (fetch command_id (ssm_client m)). Qed.

Lemma send_command_frame (commands : string) (m m1 : Machine R) (r : Res string) :
  send_command commands m = (r, m1) ->
  self m1 = self m /\ trace m1 = (trace m ++ [Dispatched commands])%list.
Proof. rewrite send_command_run. intros [= <- <-]. split; reflexivity. Qed.

Lemma get_command_invocation_frame (command_id : string) (m m1 : Machine R)
    (r : Res Invocation) :
  get_command_invocation command_id m = (r, m1) ->
  self m1 = self m /\ trace m1 = (trace m ++ [Queried command_id])%list.
Proof. rewrite get_command_invocation_run. intros [= <- <-]. split; reflexivity. Qed.

Lemma wait_for_command_frame (command_id : string) (m m1 : Machine R) (r : Res bool) :
  _wait_for_command command_id m = (r, m1) ->
  self m1 = self m /\ exists events, trace m1 = (trace m ++ events)%list.
Proof.
  destruct (wait_for_command_total command_id m) as (b & m' & events & -> & Hs & Ht).
  intros [= <- <-]. eauto.
Qed.

(** ** [_handle_cd_command] *)

Lemma handle_cd_run (command : string) (m m1 m2 m3 : Machine R)
    (command_id : string) (b : bool) (output : Invocation) :
  send_command (cd_check_cmd (current_directory (self m)) command) m = (Ok command_id, m1) ->
  _wait_for_command command_id m1 = (Ok b, m2) ->
  get_command_invocation command_id m2 = (Ok output, m3) ->
  _handle_cd_command command m =
  let result := Py.strip (StandardOutputContent output) in
  if String.eqb result sentinel then (Ok sentinel, m3)
  else (Ok ("Changed to directory: " ++ result),
        {| self := {| current_directory := result;
                      environment_vars := environment_vars (self m3);
                      command_history := command_history (self m3) ++ [command] |};
           ssm_client := ssm_client m3;
           trace := trace m3 |}).
Proof.
  intros Hsend Hwait Hfetch.
  unfold _handle_cd_command, bind at 1, get_self at 1.
  unfold bind at 1. rewrite Hsend.
  unfold bind at 1. rewrite Hwait.
  unfold bind at 1. rewrite Hfetch.
  cbv zeta. unfold sentinel.
  destruct (String.eqb (Py.strip (StandardOutputContent output)) "Directory not found");
    reflexivity.
Qed.

Lemma handle_cd_submit_raises (command : string) (m m1 : Machine R) (e : string) :
  send_command (cd_check_cmd (current_directory (self m)) command) m = (Raise e, m1) ->
  _handle_cd_command command m = (Raise e, m1).
Proof.
  intros Hsend. unfold _handle_cd_command, bind at 1, get_self at 1.
  unfold bind at 1. now rewrite Hsend.
Qed.

End Handlers.
(** ** C2 *)

(** C2. When the probe is dispatched and its output fetched,
    [_handle_cd_command] reads the output without its surrounding
    whitespace (the failing probe prints the sentinel and a line end): if
    that output equals [Directory not found] the session is left as it was
    (directory, variables and history) and that sentinel is returned;
    otherwise the directory becomes the trimmed output, the original command
    is appended to the history and [Changed to directory: <trimmed output>]
    is returned. *)
Theorem cd_decides_on_trimmed_output
    {R : Type} `{RemoteExecutor R} (command : string) (m m1 m2 m3 : Machine R)
    (command_id : string) (b : bool) (output : Invocation) :
  send_command (cd_check_cmd (current_directory (self m)) command) m = (Ok command_id, m1) ->
  _wait_for_command command_id m1 = (Ok b, m2) ->
  get_command_invocation command_id m2 = (Ok output, m3) ->
  let result := Py.strip (StandardOutputContent output) in
  (result = sentinel ->
     _handle_cd_command command m = (Ok sentinel, m3) /\ self m3 = self m)
  /\ (result <> sentinel ->
      exists m',
        _handle_cd_command command m = (Ok ("Changed to directory: " ++ result), m')
        /\ current_directory (self m') = result
        /\ command_history (self m') = (command_history (self m) ++ [command])%list
        /\ environment_vars (self m') = environment_vars (self m)
        /\ ssm_client m' = ssm_client m3
        /\ trace m' = trace m3).
Proof.
  intros Hsend Hwait Hfetch result.
  pose proof (handle_cd_run _ _ _ _ _ _ _ _ Hsend Hwait Hfetch) as Hrun.
  cbv zeta in Hrun. fold result in Hrun.
  destruct (send_command_frame _ _ _ _ Hsend) as [Hs1 _].
  destruct (wait_for_command_frame _ _ _ _ Hwait) as [Hs2 _].
  destruct (get_command_invocation_frame _ _ _ _ Hfetch) as [Hs3 _].
  assert (Hself : self m3 = self m) by congruence.
  split.
  - intros E. rewrite E, String.eqb_refl in Hrun. split; assumption.
  - intros N. apply String.eqb_neq in N. rewrite N in Hrun.
    eexists. split; [exact Hrun|]. cbn [self ssm_client trace current_directory
      command_history environment_vars]. rewrite Hself. repeat split; reflexivity.
Qed.

(** The probe of a missing directory prints the sentinel and a line end:
    the handler reports [Directory not found] and keeps the session; a
    directory that exists is stored without its line end. *)
Lemma cd_decides_on_trimmed_output_witness :
  (_handle_cd_command "cd /nowhere" (probe_machine ("Directory not found" ++ newline))
   = (Ok "Directory not found",
      snd (get_command_invocation "c-1"
             (snd (_wait_for_command "c-1"
                     (snd (send_command (cd_check_cmd "/home/ec2-user" "cd /nowhere")
                             (probe_machine ("Directory not found" ++ newline))))))))
   /\ self (snd (_handle_cd_command "cd /nowhere"
                   (probe_machine ("Directory not found" ++ newline))))
      = default_session)
  /\ exists m',
      _handle_cd_command "cd /tmp" (probe_machine ("/tmp" ++ newline))
      = (Ok "Changed to directory: /tmp", m')
      /\ current_directory (self m') = "/tmp"
      /\ command_history (self m') = ["cd /tmp"].
Proof.
  split.
  - pose (m := probe_machine ("Directory not found" ++ newline)).
    pose (m1 := snd (send_command (cd_check_cmd "/home/ec2-user" "cd /nowhere") m)).
    pose (m2 := snd (_wait_for_command "c-1" m1)).
    pose (m3 := snd (get_command_invocation "c-1" m2)).
    destruct (proj1 (cd_decides_on_trimmed_output (H := scripted_remote) "cd /nowhere" m m1 m2 m3 "c-1" true
                       {| Status := "Success";
                          StandardOutputContent := "Directory not found" ++ newline |}
                       eq_refl eq_refl eq_refl) eq_refl) as [Hrun Hself].
    split; [exact Hrun | reflexivity].
  - pose (m := probe_machine ("/tmp" ++ newline)).
    pose (m1 := snd (send_command (cd_check_cmd "/home/ec2-user" "cd /tmp") m)).
    pose (m2 := snd (_wait_for_command "c-1" m1)).
    pose (m3 := snd (get_command_invocation "c-1" m2)).
    destruct (proj2 (cd_decides_on_trimmed_output (H := scripted_remote) "cd /tmp" m m1 m2 m3 "c-1" true
                       {| Status := "Success"; StandardOutputContent := "/tmp" ++ newline |}
                       eq_refl eq_refl eq_refl))
      as (m' & Hrun & Hcwd & Hhist & _); [discriminate|].
    exists m'. repeat split; assumption.
Defined.


(** * Variable assignment *)

Section Assignment.

Context {R : Type} `{RemoteExecutor R}.

Lemma dict_get_set (k v : string) (d : list (string * string)) :
  dict_get k (dict_set k v d) = Some v.
Proof.
  induction d as [|[k' v'] d IH]; cbn [dict_set dict_get].
  - now rewrite String.eqb_refl.
  - destruct (String.eqb k' k) eqn:E; cbn [dict_get].
    + now rewrite String.eqb_refl.
    + now rewrite E.
Qed.

Lemma dict_get_set_other (k k' v : string) (d : list (string * string)) :
  k' <> k -> dict_get k' (dict_set k v d) = dict_get k' d.
Proof.
  intros N. induction d as [|[k0 v0] d IH]; cbn [dict_set dict_get].
  - apply not_eq_sym in N. apply String.eqb_neq in N. now rewrite N.
  - destruct (String.eqb k0 k) eqn:E; cbn [dict_get].
    + apply String.eqb_eq in E. subst k0.
      apply not_eq_sym in N. apply String.eqb_neq in N. now rewrite N.
    + now rewrite IH.
Qed.

(** The whole of the handler on a command with an [=]: the variable is
    stored, then the assignment is dispatched; the outcome of the dispatch
    only selects the message and whether the history grows. *)
Lemma handle_env_run (command var_name var_value : string) (m : Machine R) :
  Py.cut "=" (Py.strip command) = Some (var_name, var_value) ->
  let stored :=
    {| current_directory := current_directory (self m);
       environment_vars := dict_set var_name var_value (environment_vars (self m));
       command_history := command_history (self m) |} in
  let full_command := env_full_command (current_directory (self m)) var_name var_value in
  exists events,
    (forall e c, submit full_command (ssm_client m) = (Raise e, c) ->
       _handle_env_var_setting command m =
       (Ok ("Error setting environment variable: " ++ e),
        {| self := stored; ssm_client := c;
           trace := trace m ++ [Dispatched full_command] |}))
    /\ (forall command_id c, submit full_command (ssm_client m) = (Ok command_id, c) ->
        exists c',
          _handle_env_var_setting command m =
          (Ok ("Set environment variable " ++ var_name ++ "=" ++ var_value),
           {| self := {| current_directory := current_directory (self m);
                         environment_vars :=
                           dict_set var_name var_value (environment_vars (self m));
                         command_history := command_history (self m) ++ [command] |};
              ssm_client := c';
              trace := trace m ++ Dispatched full_command :: events |})).
Proof.
  intros Hcut stored full_command.
  pose (m0 := {| self := stored; ssm_client := ssm_client m; trace := trace m |}).
  assert (Hstart :
            _handle_env_var_setting command m =
            try_except
              (command_id <- send_command full_command ;;
               _wait_for_command command_id ;;
               history_append command ;;
               ret ("Set environment variable " ++ var_name ++ "=" ++ var_value))
              (fun e => ret ("Error setting environment variable: " ++ e)) m0).
  { unfold _handle_env_var_setting, try_except, Py.split1.
    rewrite Hcut. reflexivity. }
  destruct (submit full_command (ssm_client m)) as [[command_id|e] c] eqn:Esub.
  - pose (m1 := {| self := stored; ssm_client := c;
                   trace := trace m ++ [Dispatched full_command] |}).
    destruct (wait_for_command_total command_id m1) as (b & m2 & events & Hw & Hs & Ht).
    exists events. split; [intros ? ? [=]|].
    intros ? ? [= <- <-]. exists (ssm_client m2).
    rewrite Hstart. unfold try_except, bind at 1. rewrite send_command_run.
    cbn [self ssm_client trace m0]. rewrite Esub. cbn [fst snd].
    fold m1. unfold bind at 1. rewrite Hw.
    cbv beta iota delta [bind history_append get_self put_self ret].
    rewrite Hs, Ht. cbn [self ssm_client trace m1 stored current_directory
      environment_vars command_history]. rewrite <- app_assoc. reflexivity.
  - exists []. split; [|intros ? ? [=]].
    intros ? ? [= <- <-].
    rewrite Hstart. unfold try_except, bind at 1. rewrite send_command_run.
    cbn [self ssm_client trace m0]. rewrite Esub. reflexivity.
Qed.

(** Without an [=] the unpacking fails before anything is stored or sent. *)
Lemma handle_env_no_equals (command : string) (m : Machine R) :
  Py.cut "=" (Py.strip command) = None ->
  _handle_env_var_setting command m =
  (Ok "Error setting environment variable: not enough values to unpack (expected 2, got 1)",
   m).
Proof.
  intros Hcut. unfold _handle_env_var_setting, try_except, Py.split1.
  rewrite Hcut. reflexivity.
Qed.

Lemma classify_assignment_has_equals (command : string) :
  classify command = VariableAssignment ->
  exists var_name var_value, Py.cut "=" (Py.strip command) = Some (var_name, var_value).
Proof.
  unfold classify. intros Hk.
  destruct (Py.startswith command "cd "); [discriminate|].
  destruct (Py.contains "=" command) eqn:Hc; [|discriminate].
  apply cut_when_contains.
  rewrite contains_char in *. now rewrite has_char_strip.
Qed.

End Assignment.

(** ** C3 *)

(** C3. For a command classified as a variable assignment, with [name] and
    [value] the texts before and after its first [=]: the handler returns a
    result string, and whatever the remote dispatch does, the dictionary
    after the call is the one before with [name] set to [value], which is
    what [get_state] then reports.  The assignment is always dispatched; when
    the dispatch raises, the result is the error string and the stored
    variable stays. *)
Theorem env_var_stored_whatever_dispatch_does
    {R : Type} `{RemoteExecutor R} (command : string) (m : Machine R) :
  classify command = VariableAssignment ->
  exists var_name var_value msg m' later,
    Py.split1 "=" (Py.strip command) = [var_name; var_value]
    /\ _handle_env_var_setting command m = (Ok msg, m')
    /\ environment_vars (self m')
       = dict_set var_name var_value (environment_vars (self m))
    /\ (exists view,
          get_state m' = (Ok view, m')
          /\ dict_get var_name (view_environment_variables view) = Some var_value)
    /\ trace m'
       = (trace m
            ++ Dispatched (env_full_command (current_directory (self m)) var_name var_value)
                 :: later)%list
    /\ (forall e c,
          submit (env_full_command (current_directory (self m)) var_name var_value)
            (ssm_client m) = (Raise e, c) ->
          msg = "Error setting environment variable: " ++ e
          /\ command_history (self m') = command_history (self m)).
Proof.
  intros Hk.
  destruct (classify_assignment_has_equals _ Hk) as (var_name & var_value & Hcut).
  destruct (handle_env_run command var_name var_value m Hcut) as (events & Hraise & Hok).
  cbv zeta in Hraise, Hok.
  exists var_name, var_value.
  destruct (submit (env_full_command (current_directory (self m)) var_name var_value)
              (ssm_client m)) as [[command_id|e] c] eqn:Esub.
  - destruct (Hok _ _ eq_refl) as (c' & Hrun).
    eexists _, _, events. split; [unfold Py.split1; now rewrite Hcut|].
    split; [exact Hrun|]. cbn [self trace environment_vars].
    split; [reflexivity|]. split.
    + eexists. split; [reflexivity|]. cbn. apply dict_get_set.
    + split; [reflexivity|]. intros ? ? [=].
  - eexists _, _, []. split; [unfold Py.split1; now rewrite Hcut|].
    split; [exact (Hraise _ _ eq_refl)|]. cbn [self trace environment_vars].
    split; [reflexivity|]. split.
    + eexists. split; [reflexivity|]. cbn. apply dict_get_set.
    + split; [reflexivity|]. intros ? ? [= <- <-]. split; reflexivity.
Qed.

(** [FOO=bar] in front of a service that refuses every submission. *)
Lemma env_var_stored_whatever_dispatch_does_witness :
  exists msg m',
    _handle_env_var_setting "FOO=bar"
      (machine_at default_session {| submissions := []; invocations := [] |})
    = (Ok msg, m')
    /\ dict_get "FOO" (environment_vars (self m')) = Some "bar"
    /\ msg = "Error setting environment variable: EndpointConnectionError".
Proof.
  destruct (env_var_stored_whatever_dispatch_does (H := scripted_remote) "FOO=bar"
              (machine_at default_session {| submissions := []; invocations := [] |})
              eq_refl)
    as (var_name & var_value & msg & m' & later & Hsplit & Hrun & Henv & _ & _ & Hraise).
  injection Hsplit as <- <-.
  exists msg, m'. split; [exact Hrun|]. split.
  - rewrite Henv. reflexivity.
  - exact (proj1 (Hraise _ _ eq_refl)).
Defined.

(** ** C9 *)

(** C9 (as amended). [_handle_env_var_setting] never raises: it always
    returns a result string.  A command whose value after the [=] is empty
    is an ordinary assignment of the empty string: the variable is stored
    with the empty value and, when the submission is accepted, the result is
    the confirmation and the command is recorded.  Only a command without
    any [=] yields the unpacking error as its result, with the machine left
    as it was. *)
Theorem env_handler_never_raises
    {R : Type} `{RemoteExecutor R} (command : string) (m : Machine R) :
  exists msg m',
    _handle_env_var_setting command m = (Ok msg, m')
    /\ (Py.cut "=" (Py.strip command) = None ->
        msg = "Error setting environment variable: not enough values to unpack (expected 2, got 1)"
        /\ m' = m)
    /\ (forall var_name,
          Py.cut "=" (Py.strip command) = Some (var_name, "") ->
          environment_vars (self m') = dict_set var_name "" (environment_vars (self m))
          /\ (forall command_id c,
                submit (env_full_command (current_directory (self m)) var_name "")
                  (ssm_client m) = (Ok command_id, c) ->
                msg = "Set environment variable " ++ var_name ++ "="
                /\ command_history (self m') = (command_history (self m) ++ [command])%list)).
Proof.
  destruct (Py.cut "=" (Py.strip command)) as [[var_name var_value]|] eqn:Hcut.
  - destruct (handle_env_run command var_name var_value m Hcut) as (events & Hraise & Hok).
    cbv zeta in Hraise, Hok.
    destruct (submit (env_full_command (current_directory (self m)) var_name var_value)
                (ssm_client m)) as [[command_id|e] c] eqn:Esub.
    + destruct (Hok _ _ eq_refl) as (c' & Hrun).
      eexists _, _. split; [exact Hrun|]. split; [discriminate|].
      intros ? [= <- ->]. cbn [self environment_vars command_history].
      split; [reflexivity|]. intros ? ? _. split; reflexivity.
    + eexists _, _. split; [exact (Hraise _ _ eq_refl)|]. split; [discriminate|].
      intros ? [= <- ->]. cbn [self environment_vars command_history].
      split; [reflexivity|]. rewrite Esub. intros ? ? [=].
  - eexists _, _. split; [now apply handle_env_no_equals|].
    split; [intros _; split; reflexivity|]. intros ? [=].
Qed.

(** C9, counterexample. [FOO=] is classified as a variable assignment and
    has nothing after its [=]; the handler stores [FOO] with the empty
    value, records the command and returns the confirmation, which is not an
    error result. *)
Lemma empty_value_is_stored_counterexample :
  classify "FOO=" = VariableAssignment
  /\ Py.split1 "=" (Py.strip "FOO=") = ["FOO"; ""]
  /\ _handle_env_var_setting "FOO=" (probe_machine "")
     = (Ok "Set environment variable FOO=",
        {| self := {| current_directory := "/home/ec2-user";
                      environment_vars := [("FOO", "")];
                      command_history := ["FOO="] |};
           ssm_client := {| submissions := [];
                            invocations := [invocation "Success" ""] |};
           trace := [Dispatched "cd '/home/ec2-user' && FOO= && echo 'Set FOO='";
                     Queried "c-1"] |})
  /\ (env_error_result (fst (_handle_env_var_setting "FOO=" (probe_machine ""))) -> False).
Proof.
  repeat split.
  intros [cause E]. vm_compute in E. discriminate E.
Qed.
(** * General execution *)

Section General.

Context {R : Type} `{RemoteExecutor R}.

Lemma truthy_app_l (a b : string) : Py.truthy a = true -> Py.truthy (a ++ b) = true.
Proof. destruct a; [discriminate | reflexivity]. Qed.

Lemma render_env_vars_cons (k v : string) (rest : list (string * string)) :
  Py.truthy (render_env_vars ((k, v) :: rest)) = true.
Proof.
  unfold render_env_vars. cbn [map fst snd].
  assert (Hx : Py.truthy (k ++ "='" ++ v ++ "'") = true) by (destruct k; reflexivity).
  destruct rest as [|kv rest]; [exact Hx|].
  cbn [map]. rewrite join_cons by discriminate. now apply truthy_app_l.
Qed.

(** The prefix is empty exactly when no variable is tracked; otherwise it
    is the rendered variables and one more space. *)
Lemma env_prefix_spec (vars : list (string * string)) :
  env_prefix vars =
  match vars with
  | [] => ""
  | _ => Py.join " " (map (fun kv => fst kv ++ "='" ++ snd kv ++ "'") vars) ++ " "
  end.
Proof.
  unfold env_prefix. destruct vars as [|[k v] rest]; [reflexivity|].
  now rewrite render_env_vars_cons.
Qed.

(** The handler with the three remote steps spelt out. *)
Lemma execute_normal_run (command : string) (m : Machine R) :
  let full_command := normal_full_command (self m) command in
  _execute_normal_command command m =
  match send_command full_command m with
  | (Raise e, m1) => (Ok ("Error executing command: " ++ e), m1)
  | (Ok command_id, m1) =>
      match _wait_for_command command_id m1 with
      | (Raise e, m2) => (Ok ("Error executing command: " ++ e), m2)
      | (Ok _, m2) =>
          match get_command_invocation command_id m2 with
          | (Raise e, m3) => (Ok ("Error executing command: " ++ e), m3)
          | (Ok output, m3) =>
              (Ok (StandardOutputContent output),
               {| self := {| current_directory := current_directory (self m3);
                             environment_vars := environment_vars (self m3);
                             command_history := command_history (self m3) ++ [command] |};
                  ssm_client := ssm_client m3;
                  trace := trace m3 |})
          end
      end
  end.
Proof.
  cbv zeta. unfold _execute_normal_command, bind at 1, get_self at 1, try_except.
  unfold bind at 1.
  destruct (send_command (normal_full_command (self m) command) m) as [[command_id|e] m1];
    [|reflexivity].
  unfold bind at 1.
  destruct (_wait_for_command command_id m1) as [[b|e] m2]; [|reflexivity].
  unfold bind at 1.
  destruct (get_command_invocation command_id m2) as [[output|e] m3]; reflexivity.
Qed.

End General.

(** ** C5 *)

(** C5. [_execute_normal_command] always returns a result string. The
    first thing it does is to dispatch exactly
    [cd '<current_directory>' && <env prefix><command>], where the prefix is
    empty when no variable is tracked and otherwise lists every tracked
    variable as [name='value'], in dictionary order, separated by single
    spaces and followed by one space.  Whatever the command and the remote
    answers, the directory and the variables are the same afterwards.  When
    the submission, the wait and the fetch go through, the result is the
    captured standard output as fetched and the command is appended to the
    history; when the submission or the fetch raises, the result is
    [Error executing command: <cause>] and the history is unchanged. *)
Theorem normal_command_dispatch
    {R : Type} `{RemoteExecutor R} (command : string) (m : Machine R) :
  let full_command :=
    "cd '" ++ current_directory (self m) ++ "' && "
      ++ env_prefix (environment_vars (self m)) ++ command in
  env_prefix (environment_vars (self m)) =
    match environment_vars (self m) with
    | [] => ""
    | _ => Py.join " " (map (fun kv => fst kv ++ "='" ++ snd kv ++ "'")
                          (environment_vars (self m))) ++ " "
    end
  /\ exists msg m' later,
      _execute_normal_command command m = (Ok msg, m')
      /\ trace m' = (trace m ++ Dispatched full_command :: later)%list
      /\ current_directory (self m') = current_directory (self m)
      /\ environment_vars (self m') = environment_vars (self m)
      /\ (forall command_id m1 b m2 output m3,
            send_command full_command m = (Ok command_id, m1) ->
            _wait_for_command command_id m1 = (Ok b, m2) ->
            get_command_invocation command_id m2 = (Ok output, m3) ->
            msg = StandardOutputContent output
            /\ command_history (self m') = (command_history (self m) ++ [command])%list)
      /\ (forall e m1,
            send_command full_command m = (Raise e, m1) ->
            msg = "Error executing command: " ++ e
            /\ command_history (self m') = command_history (self m))
      /\ (forall command_id m1 b m2 e m3,
            send_command full_command m = (Ok command_id, m1) ->
            _wait_for_command command_id m1 = (Ok b, m2) ->
            get_command_invocation command_id m2 = (Raise e, m3) ->
            msg = "Error executing command: " ++ e
            /\ command_history (self m') = command_history (self m)).
Proof.
  cbv zeta. split; [apply env_prefix_spec|].
  pose proof (execute_normal_run command m) as Hrun. cbv zeta in Hrun.
  unfold normal_full_command in Hrun.
  set (full_command := "cd '" ++ current_directory (self m) ++ "' && "
                         ++ env_prefix (environment_vars (self m)) ++ command) in *.
  destruct (send_command full_command m) as [[command_id|e] m1] eqn:Esend.
  - destruct (send_command_frame _ _ _ _ Esend) as [Hs1 Ht1].
    destruct (wait_for_command_total command_id m1) as (b & m2 & events & Ew & Hs2 & Ht2).
    rewrite Ew in Hrun.
    destruct (get_command_invocation command_id m2) as [[output|e] m3] eqn:Ef;
      destruct (get_command_invocation_frame _ _ _ _ Ef) as [Hs3 Ht3].
    + eexists _, _, (events ++ [Queried command_id])%list.
      split; [exact Hrun|]. cbn [self trace current_directory environment_vars
        command_history]. rewrite Hs3, Hs2, Hs1, Ht3, Ht2, Ht1.
      split; [now rewrite <- !app_assoc|]. split; [reflexivity|]. split; [reflexivity|].
      split; [|split].
      * intros ? ? ? ? ? ? [= <- <-]. rewrite Ew. intros [= <- <-]. rewrite Ef.
        intros [= <- <-]. split; reflexivity.
      * intros ? ? [=].
      * intros ? ? ? ? ? ? [= <- <-]. rewrite Ew. intros [= <- <-]. rewrite Ef.
        intros [=].
    + eexists _, _, (events ++ [Queried command_id])%list.
      split; [exact Hrun|]. rewrite Hs3, Hs2, Hs1, Ht3, Ht2, Ht1.
      split; [now rewrite <- !app_assoc|]. split; [reflexivity|]. split; [reflexivity|].
      split; [|split].
      * intros ? ? ? ? ? ? [= <- <-]. rewrite Ew. intros [= <- <-]. rewrite Ef.
        intros [=].
      * intros ? ? [=].
      * intros ? ? ? ? ? ? [= <- <-]. rewrite Ew. intros [= <- <-]. rewrite Ef.
        intros [= <- <-]. split; reflexivity.
  - destruct (send_command_frame _ _ _ _ Esend) as [Hs1 Ht1].
    eexists _, _, []. split; [exact Hrun|]. rewrite Hs1, Ht1.
    split; [reflexivity|]. split; [reflexivity|]. split; [reflexivity|].
    split; [|split].
    + intros ? ? ? ? ? ? [=].
    + intros ? ? [= <- <-]. split; reflexivity.
    + intros ? ? ? ? ? ? [=].
Qed.
(** * The compound command *)

Section Compound.

Context {R : Type} `{RemoteExecutor R}.

Lemma handle_env_total (command : string) (m : Machine R) :
  exists msg m', _handle_env_var_setting command m = (Ok msg, m').
Proof.
  destruct (Py.cut "=" (Py.strip command)) as [[var_name var_value]|] eqn:Hcut.
  - destruct (handle_env_run command var_name var_value m Hcut) as (events & Hraise & Hok).
    cbv zeta in Hraise, Hok.
    destruct (submit (env_full_command (current_directory (self m)) var_name var_value)
                (ssm_client m)) as [[command_id|e] c] eqn:Esub.
    + destruct (Hok _ _ eq_refl) as (c' & Hrun). eauto.
    + pose proof (Hraise _ _ eq_refl). eauto.
  - pose proof (handle_env_no_equals command m Hcut). eauto.
Qed.

Lemma execute_normal_total (command : string) (m : Machine R) :
  exists msg m', _execute_normal_command command m = (Ok msg, m').
Proof.
  rewrite execute_normal_run. cbv zeta.
  destruct (send_command _ m) as [[command_id|e] m1]; [|eauto].
  destruct (_wait_for_command command_id m1) as [[b|e] m2]; [|eauto].
  destruct (get_command_invocation command_id m2) as [[output|e] m3]; eauto.
Qed.

Lemma handle_total (cmd : string) (m : Machine R) :
  classify cmd <> DirectoryChange -> exists r m', handle cmd m = (Ok r, m').
Proof.
  unfold handle. destruct (classify cmd); intros N.
  - congruence.
  - apply handle_env_total.
  - apply execute_normal_total.
Qed.

(** The loop is [runs] with the results gathered so far in front. *)
Lemma run_commands_runs (cmds : list string) :
  forall (acc results : list string) (m m' : Machine R),
    run_commands cmds acc m = (Ok results, m') <->
    exists rs, runs cmds m rs m' /\ results = (acc ++ rs)%list.
Proof.
  induction cmds as [|cmd rest IH]; intros acc results m m'.
  - cbn [run_commands]. unfold ret. split.
    + intros [= <- <-]. exists []. split; [constructor | now rewrite app_nil_r].
    + intros (rs & Hr & ->). inversion Hr; subst. now rewrite app_nil_r.
  - cbn [run_commands]. unfold bind.
    destruct (handle cmd m) as [[r|e] m1] eqn:Eh.
    + rewrite IH. split.
      * intros (rs & Hr & ->). exists (r :: rs). split.
        -- econstructor; eassumption.
        -- now rewrite <- app_assoc.
      * intros (rs & Hr & ->). inversion Hr; subst.
        match goal with E : handle cmd m = (Ok _, _) |- _ =>
          rewrite Eh in E; injection E as <- <- end.
        eexists. split; [eassumption|]. now rewrite <- app_assoc.
    + split; [discriminate|].
      intros (rs & Hr & _). inversion Hr; subst. congruence.
Qed.

Lemma runs_total (cmds : list string) :
  forall m : Machine R,
    (forall cmd, In cmd cmds -> classify cmd <> DirectoryChange) ->
    exists results m', runs cmds m results m'.
Proof.
  induction cmds as [|cmd rest IH]; intros m Hno.
  - eexists _, _. constructor.
  - destruct (handle_total cmd m) as (r & m1 & Eh); [apply Hno; now left|].
    destruct (IH m1) as (rs & m2 & Hr); [intros; apply Hno; now right|].
    eexists _, _. econstructor; eassumption.
Qed.

Lemma runs_length (cmds results : list string) (m m' : Machine R) :
  runs cmds m results m' -> List.length results = List.length cmds.
Proof. induction 1; cbn; congruence. Qed.

(** Handling [cmds1 ++ cmds2] is handling [cmds1], then [cmds2] from the
    machine that is left. *)
Lemma runs_app (cmds1 cmds2 rs1 rs2 : list string) (m m1 m2 : Machine R) :
  runs cmds1 m rs1 m1 -> runs cmds2 m1 rs2 m2 ->
  runs (cmds1 ++ cmds2) m (rs1 ++ rs2) m2.
Proof.
  induction 1; intros H2; cbn; [assumption|].
  econstructor; [eassumption|]. now apply IHruns.
Qed.


(** A directory change whose submission raises takes the whole loop down. *)
Lemma run_commands_cd_raises (cmd : string) (rest acc : list string)
    (m m1 : Machine R) (e : string) :
  classify cmd = DirectoryChange ->
  send_command (cd_check_cmd (current_directory (self m)) cmd) m = (Raise e, m1) ->
  run_commands (cmd :: rest) acc m = (Raise e, m1).
Proof.
  intros Hk Hsend. cbn [run_commands]. unfold bind, handle. rewrite Hk.
  now rewrite (handle_cd_submit_raises _ _ _ _ Hsend).
Qed.

End Compound.


(** ** C10 *)

Lemma atomic_commands_blank (ws : list string) :
  Forall (fun w => blank w = true) ws -> atomic_commands (Py.join "&&" ws) = [].
Proof.
  intros Hall. unfold atomic_commands.
  assert (Hnone : forall l, Forall (fun w => blank w = true) l ->
            filter (fun cmd => Py.truthy (Py.strip cmd)) l = []).
  { induction 1 as [|w l Hw _ IH]; [reflexivity|].
    cbn [filter]. now rewrite (strip_blank _ Hw), IH. }
  destruct ws as [|w ws]; [reflexivity|].
  rewrite split_join_fresh; [|
    eapply Forall_impl; [|exact Hall]; intros a Ha; now apply blank_has_char |
    discriminate].
  now rewrite Hnone.
Qed.

(** C10. An input made of whitespace-only pieces (possibly empty, possibly
    none) separated by [&&] makes [execute_command] return the empty string
    and leaves the whole machine as it was: same directory, variables and
    history, nothing dispatched, no query, no pause. *)
Theorem blank_input_is_a_no_op
    {R : Type} `{RemoteExecutor R} (ws : list string) (m : Machine R) :
  Forall (fun w => blank w = true) ws ->
  execute_command (Py.join "&&" ws) m = (Ok "", m).
Proof.
  intros Hall. unfold execute_command. now rewrite (atomic_commands_blank _ Hall).
Qed.

Lemma blank_input_is_a_no_op_witness :
  execute_command "  && &&   " (probe_machine "") = (Ok "", probe_machine "").
Proof.
  refine (blank_input_is_a_no_op (H := scripted_remote) ["  "; " "; "   "]
            (probe_machine "") _).
  repeat constructor.
Defined.

(** ** C8 *)

(** C8. [get_state] returns a view and leaves the whole machine as it was
    (session, service and trace).  The view holds the current directory and
    the variables, and its history is the end of the recorded history: the
    recorded history is some older entries followed by the view's, and the
    view holds ten entries, or all of them when fewer were recorded. *)
Theorem get_state_is_a_bounded_read
    {R : Type} `{RemoteExecutor R} (m : Machine R) :
  exists view older,
    get_state m = (Ok view, m)
    /\ view_current_directory view = current_directory (self m)
    /\ view_environment_variables view = environment_vars (self m)
    /\ command_history (self m) = (older ++ view_command_history view)%list
    /\ List.length (view_command_history view)
       = Nat.min 10 (List.length (command_history (self m)))
    /\ List.length (view_command_history view) <= 10.
Proof.
  eexists _, (firstn (List.length (command_history (self m)) - 10)
                (command_history (self m))).
  split; [reflexivity|]. cbn [view_current_directory view_environment_variables
    view_command_history]. split; [reflexivity|]. split; [reflexivity|].
  destruct (command_history (self m)) as [|c h] eqn:E.
  - repeat split. cbn. lia.
  - rewrite <- E. unfold last_n. split; [now rewrite firstn_skipn|].
    rewrite length_skipn. split; lia.
Qed.

(** ** C1 *)

Lemma classify_agrees_unless_bare_cd (cmd : string) :
  cmd <> "cd" -> classify cmd = classify_as_specified cmd.
Proof.
  intros N. unfold classify, classify_as_specified.
  apply String.eqb_neq in N. rewrite N, orb_false_r. reflexivity.
Qed.

(** C1. The chain tests [startswith("cd ")] on a command that has already
    been trimmed, so the bare [cd] (also written with spaces after it) is not
    a directory change: it is run as a general command in the current
    directory, the directory is kept and the branch of [_handle_cd_command]
    for an empty path is never reached.  The rules as specified make it a
    directory change. *)
Theorem bare_cd_is_general_execution :
  atomic_commands "cd  " = ["cd"]
  /\ classify "cd" = GeneralExecution
  /\ classify_as_specified "cd" = DirectoryChange
  /\ execute_command "cd  " (probe_machine "")
     = (Ok "",
        {| self := {| current_directory := "/home/ec2-user";
                      environment_vars := [];
                      command_history := ["cd"] |};
           ssm_client := {| submissions := []; invocations := [] |};
           trace := [Dispatched "cd '/home/ec2-user' && cd";
                     Queried "c-1"; Queried "c-1"] |}).
Proof. repeat split. Qed.
(** ** C4 *)

(** C4. [_handle_cd_command] has no [try] around its remote calls, unlike
    the two other handlers.  When the submission of the probe of
    [cd /tmp && pwd] raises, the exception leaves [execute_command]: no
    result string is produced and [pwd] is never dispatched.  The same
    failure on the first command of [ls && pwd] is turned into an error
    line and [pwd] still runs. *)
Theorem cd_dispatch_failure_escapes :
  execute_command "cd /tmp && pwd" (flaky_machine ("/home/ec2-user" ++ newline))
  = (Raise "EndpointConnectionError",
     {| self := default_session;
        ssm_client :=
          {| submissions := [Ok "c-2"];
             invocations := [invocation "Success" ("/home/ec2-user" ++ newline);
                             invocation "Success" ("/home/ec2-user" ++ newline)] |};
        trace := [Dispatched (cd_check_cmd "/home/ec2-user" "cd /tmp")] |})
  /\ execute_command "ls && pwd" (flaky_machine ("/home/ec2-user" ++ newline))
     = (Ok ("Error executing command: EndpointConnectionError" ++ newline
              ++ "/home/ec2-user" ++ newline),
        {| self := {| current_directory := "/home/ec2-user";
                      environment_vars := [];
                      command_history := ["pwd"] |};
           ssm_client := {| submissions := []; invocations := [] |};
           trace := [Dispatched "cd '/home/ec2-user' && ls";
                     Dispatched "cd '/home/ec2-user' && pwd";
                     Queried "c-2"; Queried "c-2"] |}).
Proof. split; reflexivity. Qed.

(** * Sample runs *)

Example split_leftmost : Py.split "&&" "a&&&b && c" = ["a"; "&b "; " c"].
Proof. reflexivity. Qed.

Example split_trailing : Py.split "&&" "a&&" = ["a"; ""].
Proof. reflexivity. Qed.

Example strip_both : Py.strip "  cd /tmp  " = "cd /tmp".
Proof. reflexivity. Qed.

Example split1_first : Py.split1 "=" "A=b=c" = ["A"; "b=c"].
Proof. reflexivity. Qed.

Example classify_samples :
  classify "cd /tmp" = DirectoryChange
  /\ classify "cd a=b" = DirectoryChange
  /\ classify "TEST_VAR=hello_world" = VariableAssignment
  /\ classify "export A=1" = GeneralExecution
  /\ classify "echo a=b" = GeneralExecution
  /\ classify "ls -la" = GeneralExecution.
Proof. repeat split. Qed.

(** A variable set and a directory entered earlier in the same call are
    seen by the command that follows. *)
Example later_commands_see_earlier_state :
  execute_command "A=1 && cd /tmp && pwd"
    (machine_at default_session
       {| submissions := [Ok "c-1"; Ok "c-2"; Ok "c-3"];
          invocations := [invocation "Success" "";
                          invocation "Success" ("/tmp" ++ newline);
                          invocation "Success" ("/tmp" ++ newline);
                          invocation "Success" ("/tmp" ++ newline);
                          invocation "Success" ("/tmp" ++ newline)] |})
  = (Ok ("Set environment variable A=1" ++ newline
           ++ "Changed to directory: /tmp" ++ newline ++ "/tmp" ++ newline),
     {| self := {| current_directory := "/tmp";
                   environment_vars := [("A", "1")];
                   command_history := ["A=1"; "cd /tmp"; "pwd"] |};
        ssm_client := {| submissions := []; invocations := [] |};
        trace := [Dispatched "cd '/home/ec2-user' && A=1 && echo 'Set A=1'";
                  Queried "c-1";
                  Dispatched (cd_check_cmd "/home/ec2-user" "cd /tmp");
                  Queried "c-2"; Queried "c-2";
                  Dispatched "cd '/tmp' && A='1' pwd";
                  Queried "c-3"; Queried "c-3"] |}).
Proof. vm_compute. reflexivity. Qed.

(** Updating a tracked variable keeps its place in the prefix. *)
Example env_prefix_order :
  env_prefix (dict_set "A" "2" [("A", "1"); ("B", "x y")]) = "A='2' B='x y' ".
Proof. reflexivity. Qed.

(** * Trimming *)

Lemma rstrip_keeps_head (c : ascii) (r : string) :
  Py.isspace c = false -> Py.rstrip (String c r) = String c (Py.rstrip r).
Proof.
  intros Hc. cbn [Py.rstrip]. rewrite Hc. now destruct (Py.rstrip r).
Qed.

Lemma rstrip_idempotent (s : string) : Py.rstrip (Py.rstrip s) = Py.rstrip s.
Proof.
  induction s as [|c s IH]; [reflexivity|].
  cbn [Py.rstrip]. destruct (Py.rstrip s) as [|d r] eqn:E.
  - destruct (Py.isspace c) eqn:Hc; [reflexivity|].
    cbn [Py.rstrip]. now rewrite Hc.
  - cbn [Py.rstrip] in IH |- *. cbn [Py.rstrip]. now rewrite IH.
Qed.

Lemma lstrip_head (s : string) :
  Py.lstrip s = "" \/ exists c r, Py.lstrip s = String c r /\ Py.isspace c = false.
Proof.
  induction s as [|c s IH]; [now left|].
  cbn [Py.lstrip]. destruct (Py.isspace c) eqn:Hc; [exact IH|].
  right. eauto.
Qed.

Lemma strip_idempotent (s : string) : Py.strip (Py.strip s) = Py.strip s.
Proof.
  unfold Py.strip. destruct (lstrip_head s) as [E | (c & r & E & Hc)]; rewrite E.
  - reflexivity.
  - rewrite (rstrip_keeps_head _ _ Hc). cbn [Py.lstrip]. rewrite Hc.
    rewrite <- (rstrip_keeps_head _ _ Hc). apply rstrip_idempotent.
Qed.

(** * Construction of the session *)

Section ConstructionFacts.

Context {R : Type} `{RemoteExecutor R}.

(** X1. [initialize_directory] never raises: whatever the service does it
    returns normally.  It dispatches [echo $HOME] once, leaves the variables
    and the history alone, and the directory afterwards is the trimmed
    answer when the submission and the fetch succeed with a non-blank
    answer, and the directory it started with in every other case. *)
Theorem initialize_directory_outcome (m : Machine R) :
  exists m' later,
    initialize_directory m = (Ok tt, m')
    /\ current_directory (self m') = discovered_directory m
    /\ environment_vars (self m') = environment_vars (self m)
    /\ command_history (self m') = command_history (self m)
    /\ trace m' = (trace m ++ Dispatched "echo $HOME" :: later)%list
    /\ count_dispatched later = 0.
Proof.
  unfold initialize_directory, discovered_directory, try_except.
  unfold bind at 1. rewrite send_command_run.
  destruct (submit "echo $HOME" (ssm_client m)) as [[command_id|e] c]; cbn [fst snd].
  - unfold bind at 1, time_sleep at 1, emit at 1. cbn [self ssm_client trace].
    unfold bind at 1. rewrite get_command_invocation_run. cbn [self ssm_client trace].
    destruct (fetch command_id c) as [[output|e] c']; cbn [fst snd].
    + destruct (Py.truthy (Py.strip (StandardOutputContent output))).
      * eexists _, _. split; [reflexivity|].
        cbn [self trace current_directory environment_vars command_history].
        do 3 (split; [reflexivity|]).
        split; [rewrite <- !app_assoc; reflexivity | reflexivity].
      * eexists _, _. split; [reflexivity|].
        cbn [self trace current_directory environment_vars command_history].
        do 3 (split; [reflexivity|]).
        split; [rewrite <- !app_assoc; reflexivity | reflexivity].
    + eexists _, _. split; [reflexivity|].
      cbn [self trace current_directory environment_vars command_history].
      do 3 (split; [reflexivity|]).
      split; [rewrite <- !app_assoc; reflexivity | reflexivity].
  - eexists _, _. split; [reflexivity|].
    cbn [self trace current_directory environment_vars command_history].
    do 3 (split; [reflexivity|]).
    split; [rewrite <- !app_assoc; reflexivity | reflexivity].
Qed.

Lemma discovered_directory_cases (m : Machine R) :
  discovered_directory m = current_directory (self m)
  \/ (discovered_directory m <> ""
      /\ exists command_id c output c',
          submit "echo $HOME" (ssm_client m) = (Ok command_id, c)
          /\ fetch command_id c = (Ok output, c')
          /\ discovered_directory m = Py.strip (StandardOutputContent output)).
Proof.
  unfold discovered_directory.
  destruct (submit "echo $HOME" (ssm_client m)) as [[command_id|e] c]; [|now left].
  destruct (fetch command_id c) as [[output|e] c'] eqn:Ef; [|now left].
  destruct (Py.truthy (Py.strip (StandardOutputContent output))) eqn:Ht; [|now left].
  right. split.
  - intros E. rewrite E in Ht. discriminate.
  - exists command_id, c, output, c'. repeat split. exact Ef.
Qed.

(** X2. A freshly constructed session has no variable and no history, and
    its directory is never empty and carries no surrounding whitespace: it is
    either the default [/home/ec2-user] or the trimmed answer of the
    instance to [echo $HOME]. *)
Theorem new_session_state (client : R) :
  environment_vars (self (new_session client)) = []
  /\ command_history (self (new_session client)) = []
  /\ current_directory (self (new_session client)) <> ""
  /\ Py.strip (current_directory (self (new_session client)))
     = current_directory (self (new_session client))
  /\ (current_directory (self (new_session client)) = "/home/ec2-user"
      \/ exists command_id c output c',
          submit "echo $HOME" client = (Ok command_id, c)
          /\ fetch command_id c = (Ok output, c')
          /\ current_directory (self (new_session client))
             = Py.strip (StandardOutputContent output)).
Proof.
  unfold new_session.
  set (m0 := {| self := default_session; ssm_client := client; trace := [] |}).
  destruct (initialize_directory_outcome m0)
    as (m' & later & -> & Hcwd & Henv & Hhist & _). cbn [snd].
  rewrite Henv, Hhist, Hcwd. split; [reflexivity|]. split; [reflexivity|].
  destruct (discovered_directory_cases m0)
    as [-> | (Hne & command_id & c & output & c' & Hs & Hf & Hd)].
  - split; [discriminate|]. split; [reflexivity|]. now left.
  - split; [exact Hne|]. rewrite Hd. split; [apply strip_idempotent|]. right.
    exists command_id, c, output, c'. repeat split; assumption.
Qed.

End ConstructionFacts.

(** * Budget of the poller *)

Lemma count_dispatched_app (a b : list Event) :
  count_dispatched (a ++ b) = count_dispatched a + count_dispatched b.
Proof.
  induction a as [|e a IH]; [reflexivity|]. destruct e; cbn; now rewrite IH.
Qed.

Lemma count_queried_app (a b : list Event) :
  count_queried (a ++ b) = count_queried a + count_queried b.
Proof.
  induction a as [|e a IH]; [reflexivity|]. destruct e; cbn; now rewrite IH.
Qed.

Lemma total_slept_app (a b : list Event) :
  total_slept (a ++ b) = (total_slept a + total_slept b)%Z.
Proof.
  induction a as [|e a IH]; [reflexivity|].
  destruct e; cbn [app total_slept]; rewrite IH; lia.
Qed.

Section PollerBudget.

Context {R : Type} `{RemoteExecutor R}.

Lemma backoff_nonneg (sleep_time : Z) (attempt : nat) :
  (0 <= sleep_time)%Z -> (0 <= backoff sleep_time attempt)%Z.
Proof.
  intros Hs. unfold backoff.
  assert (0 < 2 ^ Z.of_nat attempt)%Z by (apply Z.pow_pos_nonneg; lia).
  apply Z.min_glb; nia.
Qed.

Lemma delay_after_bounds (sleep_time : Z) (attempt : nat) (a : Res Invocation) :
  (0 <= sleep_time)%Z ->
  (0 <= delay_after sleep_time attempt a
   <= Z.max sleep_time (backoff sleep_time attempt))%Z.
Proof.
  intros Hs. pose proof (backoff_nonneg sleep_time attempt Hs).
  destruct a; cbn [delay_after]; lia.
Qed.

Lemma wait_loop_events (command_id : string) (sleep_time : Z) :
  (0 <= sleep_time)%Z ->
  forall remaining attempt (m : Machine R),
    exists b m' events,
      wait_loop command_id sleep_time remaining attempt m = (Ok b, m')
      /\ self m' = self m
      /\ trace m' = (trace m ++ events)%list
      /\ count_dispatched events = 0
      /\ count_queried events <= remaining
      /\ (remaining <> 0 -> 1 <= count_queried events)
      /\ (0 <= total_slept events <= sleep_budget sleep_time remaining attempt)%Z.
Proof.
  intros Hs. induction remaining as [|remaining IH]; intros attempt m.
  - eexists _, _, _. split; [reflexivity|]. cbn [self trace].
    do 2 (split; [reflexivity|]). cbn. repeat split; try lia; congruence.
  - cbn [wait_loop]. unfold bind. rewrite wait_attempt_run. cbv zeta.
    pose proof (delay_after_bounds sleep_time attempt
                  (fst (fetch command_id (ssm_client m))) Hs) as Hd.
    assert (Hb : (0 <= sleep_budget sleep_time remaining (S attempt))%Z).
    { clear - Hs. revert attempt.
      induction remaining as [|k IHk]; intros attempt; cbn [sleep_budget]; [lia|].
      specialize (IHk (S attempt)). lia. }
    destruct (terminal_answer _).
    + eexists _, _, _. split; [reflexivity|]. cbn [self trace].
      do 2 (split; [reflexivity|]). cbn [count_dispatched count_queried total_slept
        sleep_budget]. repeat split; lia.
    + edestruct IH as (b & m' & events & -> & Hself & Ht & Hcd & Hcq & _ & Hts).
      eexists _, _, _. split; [reflexivity|]. split; [exact Hself|].
      rewrite Ht. cbn [trace]. split; [rewrite <- app_assoc; reflexivity|].
      cbn [app count_dispatched count_queried total_slept sleep_budget].
      repeat split; lia.
Qed.

End PollerBudget.

(** X3. One call of [_wait_for_command] never raises, leaves the session
    alone, submits nothing, issues at least one and at most ten status
    queries, and sleeps at most 126 seconds in all
    (3 + 6 + 12 + 7 * 15). *)
Theorem wait_for_command_budget
    {R : Type} `{RemoteExecutor R} (command_id : string) (m : Machine R) :
  exists b m' events,
    _wait_for_command command_id m = (Ok b, m')
    /\ self m' = self m
    /\ trace m' = (trace m ++ events)%list
    /\ count_dispatched events = 0
    /\ 1 <= count_queried events <= 10
    /\ (0 <= total_slept events <= 126)%Z.
Proof.
  destruct (wait_loop_events command_id 3 ltac:(lia) 10 0 m)
    as (b & m' & events & Hrun & Hself & Ht & Hcd & Hcq & Hone & Hts).
  exists b, m', events. split; [exact Hrun|]. split; [exact Hself|].
  split; [exact Ht|]. split; [exact Hcd|]. split.
  - split; [apply Hone; discriminate | exact Hcq].
  - change (sleep_budget 3 10 0) with 126%Z in Hts. exact Hts.
Qed.

(** The bound is reached when the command stays pending throughout. *)
Example wait_for_command_budget_reached :
  total_slept
    (trace (snd (_wait_for_command "c-1"
                   (machine_at default_session
                      {| submissions := [];
                         invocations := repeat (invocation "InProgress" "") 10 |}))))
  = 126%Z.
Proof. vm_compute. reflexivity. Qed.

(** * What one handler can do to the machine *)

Section Effects.

Context {R : Type} `{RemoteExecutor R}.

Lemma wait_for_command_events (command_id : string) (m : Machine R) :
  exists b m' events,
    _wait_for_command command_id m = (Ok b, m')
    /\ self m' = self m
    /\ trace m' = (trace m ++ events)%list
    /\ count_dispatched events = 0.
Proof.
  destruct (wait_loop_events command_id 3 ltac:(lia) 10 0 m)
    as (b & m' & events & Hrun & Hself & Ht & Hcd & _).
  eauto 8.
Qed.

(** Every outcome of [_handle_cd_command]: the probe is the only
    submission; either the session is untouched (sentinel or exception) or
    the directory becomes a trimmed text other than the sentinel and the
    command is recorded. *)
Lemma handle_cd_effect (command : string) (m m' : Machine R) (r : Res string) :
  _handle_cd_command command m = (r, m') ->
  exists later,
    trace m' = (trace m
                  ++ Dispatched (cd_check_cmd (current_directory (self m)) command)
                       :: later)%list
    /\ count_dispatched later = 0
    /\ ((self m' = self m /\ (r = Ok sentinel \/ exists e, r = Raise e))
        \/ exists result,
            result <> sentinel
            /\ Py.strip result = result
            /\ r = Ok ("Changed to directory: " ++ result)
            /\ self m' = {| current_directory := result;
                            environment_vars := environment_vars (self m);
                            command_history := command_history (self m) ++ [command] |}).
Proof.
  destruct (send_command (cd_check_cmd (current_directory (self m)) command) m)
    as [[command_id|e] m1] eqn:Esend;
    destruct (send_command_frame _ _ _ _ Esend) as [Hs1 Ht1].
  - destruct (wait_for_command_events command_id m1)
      as (b & m2 & events & Ew & Hs2 & Ht2 & Hc2).
    destruct (get_command_invocation command_id m2) as [[output|e] m3] eqn:Ef;
      destruct (get_command_invocation_frame _ _ _ _ Ef) as [Hs3 Ht3].
    + rewrite (handle_cd_run _ _ _ _ _ _ _ _ Esend Ew Ef). cbv zeta.
      destruct (String.eqb (Py.strip (StandardOutputContent output)) sentinel) eqn:Es;
        intros [= <- <-]; exists (events ++ [Queried command_id])%list.
      * rewrite Ht3, Ht2, Ht1, <- !app_assoc. split; [reflexivity|].
        rewrite count_dispatched_app, Hc2. split; [reflexivity|].
        left. split; [congruence | now left].
      * cbn [trace self]. rewrite Ht3, Ht2, Ht1, <- !app_assoc. split; [reflexivity|].
        rewrite count_dispatched_app, Hc2. split; [reflexivity|].
        right. exists (Py.strip (StandardOutputContent output)).
        split; [now apply String.eqb_neq|]. split; [apply strip_idempotent|].
        split; [reflexivity|]. rewrite Hs3, Hs2, Hs1. reflexivity.
    + unfold _handle_cd_command, bind at 1, get_self at 1.
      unfold bind at 1. rewrite Esend. unfold bind at 1. rewrite Ew.
      unfold bind at 1. rewrite Ef. intros [= <- <-].
      exists (events ++ [Queried command_id])%list.
      rewrite Ht3, Ht2, Ht1, <- !app_assoc. split; [reflexivity|].
      rewrite count_dispatched_app, Hc2. split; [reflexivity|].
      left. split; [congruence | right; eauto].
  - rewrite (handle_cd_submit_raises _ _ _ _ Esend). intros [= <- <-].
    exists []. rewrite Ht1. split; [reflexivity|]. split; [reflexivity|].
    left. split; [assumption | right; eauto].
Qed.

(** Every outcome of [_handle_env_var_setting] on a command with an [=]. *)
Lemma handle_env_effect (command var_name var_value : string) (m m' : Machine R)
    (r : Res string) :
  Py.cut "=" (Py.strip command) = Some (var_name, var_value) ->
  _handle_env_var_setting command m = (r, m') ->
  exists later msg,
    r = Ok msg
    /\ trace m' = (trace m
                    ++ Dispatched (env_full_command (current_directory (self m))
                                     var_name var_value)
                         :: later)%list
    /\ count_dispatched later = 0
    /\ current_directory (self m') = current_directory (self m)
    /\ environment_vars (self m')
       = dict_set var_name var_value (environment_vars (self m))
    /\ (command_history (self m') = command_history (self m)
        \/ command_history (self m') = (command_history (self m) ++ [command])%list).
Proof.
  intros Hcut.
  set (stored := {| current_directory := current_directory (self m);
                    environment_vars :=
                      dict_set var_name var_value (environment_vars (self m));
                    command_history := command_history (self m) |}).
  set (full_command := env_full_command (current_directory (self m)) var_name var_value).
  pose (m0 := {| self := stored; ssm_client := ssm_client m; trace := trace m |}).
  assert (Hstart :
            _handle_env_var_setting command m =
            try_except
              (command_id <- send_command full_command ;;
               _wait_for_command command_id ;;
               history_append command ;;
               ret ("Set environment variable " ++ var_name ++ "=" ++ var_value))
              (fun e => ret ("Error setting environment variable: " ++ e)) m0).
  { unfold _handle_env_var_setting, try_except, Py.split1.
    rewrite Hcut. reflexivity. }
  rewrite Hstart. unfold try_except, bind at 1. rewrite send_command_run.
  cbn [self ssm_client trace m0].
  destruct (submit full_command (ssm_client m)) as [[command_id|e] c]; cbn [fst snd].
  - pose (m1 := {| self := stored; ssm_client := c;
                   trace := trace m ++ [Dispatched full_command] |}).
    fold m1.
    destruct (wait_for_command_events command_id m1)
      as (b & m2 & events & Ew & Hs2 & Ht2 & Hc2).
    unfold bind at 1. rewrite Ew.
    cbv beta iota delta [bind history_append get_self put_self ret].
    intros [= <- <-]. exists events. eexists. split; [reflexivity|].
    cbn [self trace current_directory environment_vars command_history].
    rewrite Hs2, Ht2. cbn [self trace m1 stored current_directory environment_vars
      command_history]. rewrite <- app_assoc.
    split; [reflexivity|]. split; [exact Hc2|]. split; [reflexivity|].
    split; [reflexivity|]. now right.
  - unfold ret. intros [= <- <-]. exists []. eexists. split; [reflexivity|].
    cbn [self trace stored current_directory environment_vars command_history].
    split; [reflexivity|]. split; [reflexivity|]. split; [reflexivity|].
    split; [reflexivity|]. now left.
Qed.

(** Every outcome of [_execute_normal_command]. *)
Lemma execute_normal_effect (command : string) (m m' : Machine R) (r : Res string) :
  _execute_normal_command command m = (r, m') ->
  exists later msg,
    r = Ok msg
    /\ trace m' = (trace m ++ Dispatched (normal_full_command (self m) command)
                     :: later)%list
    /\ count_dispatched later = 0
    /\ current_directory (self m') = current_directory (self m)
    /\ environment_vars (self m') = environment_vars (self m)
    /\ (command_history (self m') = command_history (self m)
        \/ command_history (self m') = (command_history (self m) ++ [command])%list).
Proof.
  rewrite execute_normal_run. cbv zeta.
  destruct (send_command (normal_full_command (self m) command) m)
    as [[command_id|e] m1] eqn:Esend;
    destruct (send_command_frame _ _ _ _ Esend) as [Hs1 Ht1].
  - destruct (wait_for_command_events command_id m1)
      as (b & m2 & events & Ew & Hs2 & Ht2 & Hc2). rewrite Ew.
    destruct (get_command_invocation command_id m2) as [[output|e] m3] eqn:Ef;
      destruct (get_command_invocation_frame _ _ _ _ Ef) as [Hs3 Ht3];
      intros [= <- <-]; exists (events ++ [Queried command_id])%list; eexists;
      (split; [reflexivity|]);
      cbn [self trace current_directory environment_vars command_history];
      rewrite Ht3, Ht2, Ht1, Hs3, Hs2, Hs1, <- !app_assoc;
      (split; [reflexivity|]); rewrite count_dispatched_app, Hc2;
      (split; [reflexivity|]); (split; [reflexivity|]); (split; [reflexivity|]).
    + now right.
    + now left.
  - intros [= <- <-]. exists []. eexists. split; [reflexivity|].
    rewrite Ht1, Hs1. repeat split. now left.
Qed.

End Effects.

(** * Invariants of a compound call *)

Lemma dict_set_keys_in (k v k' : string) (d : list (string * string)) :
  In k' (map fst (dict_set k v d)) <-> k' = k \/ In k' (map fst d).
Proof.
  induction d as [|[k0 v0] d IH]; cbn [dict_set map fst In].
  - intuition congruence.
  - destruct (String.eqb k0 k) eqn:E; cbn [map fst In].
    + apply String.eqb_eq in E. subst k0. intuition congruence.
    + rewrite IH. intuition congruence.
Qed.

Lemma dict_set_keys_unique (k v : string) (d : list (string * string)) :
  NoDup (map fst d) -> NoDup (map fst (dict_set k v d)).
Proof.
  induction d as [|[k0 v0] d IH]; cbn [dict_set map fst]; intros Hd.
  - repeat constructor. intros [].
  - inversion Hd as [|? ? Hnot Hrest]; subst.
    destruct (String.eqb k0 k) eqn:E; cbn [map fst].
    + apply String.eqb_eq in E. subst k0. now constructor.
    + constructor; [|now apply IH].
      rewrite dict_set_keys_in. intros [-> | Hin]; [|contradiction].
      rewrite String.eqb_refl in E. discriminate.
Qed.

Section Invariants.

Context {R : Type} `{RemoteExecutor R}.

(** What handling one atomic command can do, whatever its kind and
    outcome. *)
Lemma handle_effect (cmd : string) (m m' : Machine R) (r : Res string) :
  handle cmd m = (r, m') ->
  exists added,
    trace m' = (trace m ++ added)%list
    /\ count_dispatched added = 1
    /\ (command_history (self m') = command_history (self m)
        \/ command_history (self m') = (command_history (self m) ++ [cmd])%list)
    /\ (NoDup (map fst (environment_vars (self m))) ->
        NoDup (map fst (environment_vars (self m'))))
    /\ (forall k, In k (map fst (environment_vars (self m))) ->
                  In k (map fst (environment_vars (self m'))))
    /\ (classify cmd <> DirectoryChange ->
        current_directory (self m') = current_directory (self m)
        /\ exists msg, r = Ok msg)
    /\ (classify cmd <> VariableAssignment ->
        environment_vars (self m') = environment_vars (self m)).
Proof.
  unfold handle. destruct (classify cmd) eqn:Hk; intros Hrun.
  - destruct (handle_cd_effect _ _ _ _ Hrun)
      as (later & Ht & Hc & [[Hs _] | (result & _ & _ & _ & Hs)]);
      eexists; (split; [exact Ht|]); cbn [count_dispatched]; rewrite Hc, Hs;
      cbn [environment_vars command_history];
      (split; [reflexivity|]).
    + split; [now left|]. split; [auto|]. split; [auto|]. split; [congruence | auto].
    + split; [now right|]. split; [auto|]. split; [auto|]. split; [congruence | auto].
  - destruct (classify_assignment_has_equals _ Hk) as (var_name & var_value & Hcut).
    destruct (handle_env_effect _ _ _ _ _ _ Hcut Hrun)
      as (later & msg & -> & Ht & Hc & Hcwd & Henv & Hh).
    eexists. split; [exact Ht|]. cbn [count_dispatched]. rewrite Hc, Henv.
    split; [reflexivity|]. split; [exact Hh|].
    split; [apply dict_set_keys_unique|].
    split; [intros k Hin; apply dict_set_keys_in; now right|].
    split; [intros _; split; [exact Hcwd | eauto] | congruence].
  - destruct (execute_normal_effect _ _ _ _ Hrun)
      as (later & msg & -> & Ht & Hc & Hcwd & Henv & Hh).
    eexists. split; [exact Ht|]. cbn [count_dispatched]. rewrite Hc, Henv.
    split; [reflexivity|]. split; [exact Hh|]. split; [auto|]. split; [auto|].
    split; [intros _; split; [exact Hcwd | eauto] | auto].
Qed.

Lemma run_commands_effect (cmds : list string) :
  forall (acc : list string) (m m' : Machine R) (r : Res (list string)),
    run_commands cmds acc m = (r, m') ->
    exists recorded added,
      command_history (self m') = (command_history (self m) ++ recorded)%list
      /\ incl recorded cmds
      /\ List.length recorded <= List.length cmds
      /\ trace m' = (trace m ++ added)%list
      /\ count_dispatched added <= List.length cmds
      /\ ((exists x, r = Ok x) -> count_dispatched added = List.length cmds)
      /\ (NoDup (map fst (environment_vars (self m))) ->
          NoDup (map fst (environment_vars (self m'))))
      /\ (forall k, In k (map fst (environment_vars (self m))) ->
                    In k (map fst (environment_vars (self m'))))
      /\ ((forall cmd, In cmd cmds -> classify cmd <> DirectoryChange) ->
          current_directory (self m') = current_directory (self m))
      /\ ((forall cmd, In cmd cmds -> classify cmd <> VariableAssignment) ->
          environment_vars (self m') = environment_vars (self m)).
Proof.
  induction cmds as [|cmd rest IH]; intros acc m m' r Hrun.
  - cbn [run_commands] in Hrun. unfold ret in Hrun. injection Hrun as <- <-.
    exists [], []. rewrite !app_nil_r. cbn [List.length count_dispatched].
    repeat split; auto. intros ? [].
  - cbn [run_commands] in Hrun. unfold bind in Hrun.
    destruct (handle cmd m) as [r1 m1] eqn:Eh.
    destruct (handle_effect _ _ _ _ Eh)
      as (added1 & Ht1 & Hc1 & Hh1 & Hu1 & Hk1 & Hcwd1 & Henv1).
    destruct r1 as [x|e].
    + destruct (IH _ _ _ _ Hrun)
        as (recorded & added & Hh & Hincl & Hlen & Ht & Hc & Hceq & Hu & Hk & Hcwd & Henv).
      exists ((if list_eq_dec string_dec (command_history (self m1))
                    (command_history (self m)) then [] else [cmd]) ++ recorded)%list,
             (added1 ++ added)%list.
      rewrite Ht, Ht1, Hh, count_dispatched_app, Hc1, length_app, <- !app_assoc.
      cbn [List.length].
      destruct (list_eq_dec string_dec (command_history (self m1))
                  (command_history (self m))) as [Eq|Nq]; cbn [app List.length].
      * rewrite Eq. split; [reflexivity|].
        split; [intros c Hc'; right; now apply Hincl|]. split; [lia|].
        split; [reflexivity|]. split; [lia|]. split; [intros Hx; rewrite (Hceq Hx); lia|].
        split; [auto|]. split; [auto|]. split.
        -- intros Hno. rewrite Hcwd by (intros; apply Hno; now right).
           apply Hcwd1. apply Hno. now left.
        -- intros Hno. rewrite Henv by (intros; apply Hno; now right).
           apply Henv1. apply Hno. now left.
      * destruct Hh1 as [Hh1|Hh1]; [congruence|]. rewrite Hh1, <- app_assoc.
        split; [reflexivity|].
        split; [intros c [<-|Hc']; [now left | right; now apply Hincl]|].
        split; [lia|].
        split; [reflexivity|]. split; [lia|]. split; [intros Hx; rewrite (Hceq Hx); lia|].
        split; [auto|]. split; [auto|]. split.
        -- intros Hno. rewrite Hcwd by (intros; apply Hno; now right).
           apply Hcwd1. apply Hno. now left.
        -- intros Hno. rewrite Henv by (intros; apply Hno; now right).
           apply Henv1. apply Hno. now left.
    + injection Hrun as <- <-.
      exists (if list_eq_dec string_dec (command_history (self m1))
                   (command_history (self m)) then [] else [cmd]), added1.
      rewrite Ht1, Hc1. cbn [List.length].
      assert (Hcd : classify cmd = DirectoryChange).
      { destruct (classify cmd) eqn:Hk; [reflexivity| |];
          (destruct Hcwd1 as [_ [msg Hmsg]]; [congruence | discriminate]). }
      destruct (list_eq_dec string_dec (command_history (self m1))
                  (command_history (self m))) as [Eq|Nq]; cbn [List.length].
      * rewrite Eq, app_nil_r. split; [reflexivity|].
        split; [intros c []|]. split; [lia|]. split; [reflexivity|]. split; [lia|].
        split; [intros [x Hx]; discriminate|]. split; [auto|]. split; [auto|]. split.
        -- intros Hno. exfalso. apply (Hno cmd); [now left | exact Hcd].
        -- intros Hno. apply Henv1. rewrite Hcd. discriminate.
      * destruct Hh1 as [Hh1|Hh1]; [congruence|]. rewrite Hh1.
        split; [reflexivity|].
        split; [intros c [<-|[]]; now left|]. split; [lia|].
        split; [reflexivity|]. split; [lia|].
        split; [intros [x Hx]; discriminate|]. split; [auto|]. split; [auto|]. split.
        -- intros Hno. exfalso. apply (Hno cmd); [now left | exact Hcd].
        -- intros Hno. apply Henv1. rewrite Hcd. discriminate.
Qed.

Lemma execute_command_runs_loop (command : string) (m m' : Machine R) (r : Res string) :
  execute_command command m = (r, m') ->
  exists r', run_commands (atomic_commands command) [] m = (r', m')
             /\ ((exists out, r = Ok out) <-> exists x, r' = Ok x).
Proof.
  unfold execute_command, bind, ret.
  destruct (run_commands (atomic_commands command) [] m) as [[x|e] m1];
    intros [= <- <-]; eexists; (split; [reflexivity|]); split; intros [? ?];
    try discriminate; eauto.
Qed.

End Invariants.

(** ** X4 *)

(** X4. A directory change is all or nothing.  Whatever the service does,
    [_handle_cd_command] submits exactly one command, the probe.  If it
    raises or answers [Directory not found], the session is exactly as
    before.  Otherwise the new directory is a trimmed text different from
    the sentinel, the command is appended to the history and the variables
    are kept. *)
Theorem cd_is_all_or_nothing
    {R : Type} `{RemoteExecutor R} (command : string) (m : Machine R) :
  exists later,
    trace (snd (_handle_cd_command command m))
    = (trace m ++ Dispatched (cd_check_cmd (current_directory (self m)) command)
         :: later)%list
    /\ count_dispatched later = 0
    /\ ((self (snd (_handle_cd_command command m)) = self m
         /\ (fst (_handle_cd_command command m) = Ok sentinel
             \/ exists e, fst (_handle_cd_command command m) = Raise e))
        \/ exists result,
            result <> sentinel
            /\ Py.strip result = result
            /\ fst (_handle_cd_command command m) = Ok ("Changed to directory: " ++ result)
            /\ self (snd (_handle_cd_command command m))
               = {| current_directory := result;
                    environment_vars := environment_vars (self m);
                    command_history := command_history (self m) ++ [command] |}).
Proof.
  destruct (_handle_cd_command command m) as [r m'] eqn:Erun.
  exact (handle_cd_effect _ _ _ _ Erun).
Qed.

(** ** X5 *)

(** X5. A probe that comes back with no output, or with whitespace only, is
    taken for a successful change: the directory becomes the empty string,
    the command is recorded and the result is [Changed to directory: ]
    with nothing after it. *)
Theorem cd_blank_output_empties_directory
    {R : Type} `{RemoteExecutor R} (command : string) (m m1 m2 m3 : Machine R)
    (command_id : string) (b : bool) (output : Invocation) :
  send_command (cd_check_cmd (current_directory (self m)) command) m = (Ok command_id, m1) ->
  _wait_for_command command_id m1 = (Ok b, m2) ->
  get_command_invocation command_id m2 = (Ok output, m3) ->
  blank (StandardOutputContent output) = true ->
  exists m',
    _handle_cd_command command m = (Ok "Changed to directory: ", m')
    /\ current_directory (self m') = ""
    /\ environment_vars (self m') = environment_vars (self m)
    /\ command_history (self m') = (command_history (self m) ++ [command])%list.
Proof.
  intros Hsend Hwait Hfetch Hblank.
  rewrite (handle_cd_run _ _ _ _ _ _ _ _ Hsend Hwait Hfetch). cbv zeta.
  rewrite (strip_blank _ Hblank).
  destruct (send_command_frame _ _ _ _ Hsend) as [Hs1 _].
  destruct (wait_for_command_frame _ _ _ _ Hwait) as [Hs2 _].
  destruct (get_command_invocation_frame _ _ _ _ Hfetch) as [Hs3 _].
  eexists. split; [reflexivity|].
  cbn [self current_directory environment_vars command_history].
  rewrite Hs3, Hs2, Hs1. repeat split.
Qed.

Lemma cd_blank_output_empties_directory_witness :
  exists m',
    _handle_cd_command "cd /tmp" (probe_machine newline)
    = (Ok "Changed to directory: ", m')
    /\ current_directory (self m') = ""
    /\ environment_vars (self m') = []
    /\ command_history (self m') = ["cd /tmp"].
Proof.
  pose (m := probe_machine newline).
  pose (m1 := snd (send_command (cd_check_cmd "/home/ec2-user" "cd /tmp") m)).
  pose (m2 := snd (_wait_for_command "c-1" m1)).
  pose (m3 := snd (get_command_invocation "c-1" m2)).
  exact (cd_blank_output_empties_directory (H := scripted_remote) "cd /tmp" m m1 m2 m3
           "c-1" true {| Status := "Success"; StandardOutputContent := newline |}
           eq_refl eq_refl eq_refl eq_refl).
Defined.

(** ** X6 *)

(** X6. The history only grows.  After [execute_command], whether it
    returned or raised, the history is the one before followed by some of
    the atomic commands of the input, at most one entry per atomic
    command. *)
Theorem history_is_append_only
    {R : Type} `{RemoteExecutor R} (command : string) (m : Machine R) :
  exists recorded,
    command_history (self (snd (execute_command command m)))
    = (command_history (self m) ++ recorded)%list
    /\ incl recorded (atomic_commands command)
    /\ List.length recorded <= List.length (atomic_commands command).
Proof.
  destruct (execute_command command m) as [r m'] eqn:Erun.
  destruct (execute_command_runs_loop _ _ _ _ Erun) as (r' & Hloop & _).
  destruct (run_commands_effect _ _ _ _ _ Hloop)
    as (recorded & added & Hh & Hincl & Hlen & _).
  exists recorded. cbn [snd]. auto.
Qed.

(** ** X7 *)

(** X7. The variables stay a dictionary and are never unset.  If the names
    are pairwise distinct before [execute_command], they are afterwards, and
    every name tracked before is still tracked afterwards, whether the call
    returned or raised. *)
Theorem variables_stay_a_dictionary
    {R : Type} `{RemoteExecutor R} (command : string) (m : Machine R) :
  NoDup (map fst (environment_vars (self m))) ->
  NoDup (map fst (environment_vars (self (snd (execute_command command m)))))
  /\ forall k, In k (map fst (environment_vars (self m))) ->
               In k (map fst (environment_vars (self (snd (execute_command command m))))).
Proof.
  intros Hu. destruct (execute_command command m) as [r m'] eqn:Erun.
  destruct (execute_command_runs_loop _ _ _ _ Erun) as (r' & Hloop & _).
  destruct (run_commands_effect _ _ _ _ _ Hloop)
    as (recorded & added & _ & _ & _ & _ & _ & _ & Hnd & Hk & _).
  cbn [snd]. auto.
Qed.

Lemma variables_stay_a_dictionary_witness :
  NoDup (map fst (environment_vars
                    (self (snd (execute_command "A=1 && B=2 && A=3" (probe_machine ""))))))
  /\ forall k, In k (map fst (environment_vars (self (probe_machine "")))) ->
               In k (map fst (environment_vars
                                (self (snd (execute_command "A=1 && B=2 && A=3"
                                              (probe_machine "")))))).
Proof.
  exact (variables_stay_a_dictionary (H := scripted_remote) "A=1 && B=2 && A=3"
           (probe_machine "") (NoDup_nil _)).
Defined.

(** ** X8 *)

(** X8. Only a directory change moves the directory.  When no atomic
    command of the input is classified as a directory change,
    [execute_command] returns a string and the directory is the one before,
    whatever the commands print, also for a command with a [cd] inside such
    as [ls; cd /tmp]. *)
Theorem directory_moves_only_by_cd
    {R : Type} `{RemoteExecutor R} (command : string) (m : Machine R) :
  (forall cmd, In cmd (atomic_commands command) -> classify cmd <> DirectoryChange) ->
  current_directory (self (snd (execute_command command m))) = current_directory (self m)
  /\ exists out, fst (execute_command command m) = Ok out.
Proof.
  intros Hno. destruct (execute_command command m) as [r m'] eqn:Erun.
  destruct (execute_command_runs_loop _ _ _ _ Erun) as (r' & Hloop & Hok).
  destruct (run_commands_effect _ _ _ _ _ Hloop)
    as (recorded & added & _ & _ & _ & _ & _ & _ & _ & _ & Hcwd & _).
  cbn [fst snd]. split; [now apply Hcwd|].
  apply Hok. destruct (runs_total _ m Hno) as (results & m2 & Hr).
  assert (Er : run_commands (atomic_commands command) [] m = (Ok results, m2))
    by (apply run_commands_runs; eauto).
  rewrite Er in Hloop. injection Hloop as <- _. eauto.
Qed.

Lemma directory_moves_only_by_cd_witness :
  current_directory (self (snd (execute_command "ls; cd /tmp"
                                  (probe_machine ("/tmp" ++ newline)))))
  = "/home/ec2-user"
  /\ exists out,
      fst (execute_command "ls; cd /tmp" (probe_machine ("/tmp" ++ newline))) = Ok out.
Proof.
  refine (directory_moves_only_by_cd (H := scripted_remote) "ls; cd /tmp"
            (probe_machine ("/tmp" ++ newline)) _).
  intros cmd [<- | []]. discriminate.
Defined.

(** ** X9 *)

(** X9. Only a variable assignment touches the variables.  When no atomic
    command of the input is classified as a variable assignment, the
    variables after [execute_command] are the ones before, whether the call
    returned or raised. *)
Theorem variables_change_only_by_assignment
    {R : Type} `{RemoteExecutor R} (command : string) (m : Machine R) :
  (forall cmd, In cmd (atomic_commands command) -> classify cmd <> VariableAssignment) ->
  environment_vars (self (snd (execute_command command m))) = environment_vars (self m).
Proof.
  intros Hno. destruct (execute_command command m) as [r m'] eqn:Erun.
  destruct (execute_command_runs_loop _ _ _ _ Erun) as (r' & Hloop & _).
  destruct (run_commands_effect _ _ _ _ _ Hloop)
    as (recorded & added & _ & _ & _ & _ & _ & _ & _ & _ & _ & Henv).
  cbn [snd]. now apply Henv.
Qed.

Lemma variables_change_only_by_assignment_witness :
  environment_vars (self (snd (execute_command "cd /tmp && export A=1"
                                 (probe_machine ("/tmp" ++ newline)))))
  = [].
Proof.
  refine (variables_change_only_by_assignment (H := scripted_remote)
            "cd /tmp && export A=1" (probe_machine ("/tmp" ++ newline)) _).
  intros cmd [<- | [<- | []]]; discriminate.
Defined.

(** ** X10 *)

(** X10. One remote submission per atomic command.  [execute_command]
    never submits more commands than the input has atomic commands, and when
    it returns a string it has submitted exactly one per atomic command. *)
Theorem one_submission_per_atomic_command
    {R : Type} `{RemoteExecutor R} (command : string) (m : Machine R) :
  exists added,
    trace (snd (execute_command command m)) = (trace m ++ added)%list
    /\ count_dispatched added <= List.length (atomic_commands command)
    /\ ((exists out, fst (execute_command command m) = Ok out) ->
        count_dispatched added = List.length (atomic_commands command)).
Proof.
  destruct (execute_command command m) as [r m'] eqn:Erun.
  destruct (execute_command_runs_loop _ _ _ _ Erun) as (r' & Hloop & Hok).
  destruct (run_commands_effect _ _ _ _ _ Hloop)
    as (recorded & added & _ & _ & _ & Ht & Hle & Heq & _).
  exists added. cbn [fst snd]. split; [exact Ht|]. split; [exact Hle|].
  intros Hout. apply Heq. now apply Hok.
Qed.

(** * Shape of the atomic commands *)

Lemma prefix_empty (s : string) : String.prefix "" s = true.
Proof. destruct s; reflexivity. Qed.

Lemma contains_app_l (sub a y : string) :
  Py.contains sub a = true -> Py.contains sub (a ++ y) = true.
Proof.
  induction a as [|c a IH]; cbn [Py.contains append]; intros Hc.
  - rewrite orb_false_r in Hc. destruct sub; [|discriminate].
    destruct y; reflexivity.
  - apply orb_true_iff in Hc as [Hp | Hc].
    + apply (prefix_app_r _ _ y) in Hp. cbn [append] in Hp. now rewrite Hp.
    + rewrite (IH Hc). apply orb_true_r.
Qed.

Lemma contains_app_r (sub x a : string) :
  Py.contains sub a = true -> Py.contains sub (x ++ a) = true.
Proof.
  intros Hc. induction x as [|c x IH]; [exact Hc|].
  cbn [append Py.contains]. rewrite IH. apply orb_true_r.
Qed.

Lemma lstrip_suffix (s : string) : exists x, s = x ++ Py.lstrip s.
Proof.
  induction s as [|c s [x IH]]; [now exists ""|].
  cbn [Py.lstrip]. destruct (Py.isspace c).
  - exists (String c x). cbn [append]. now rewrite <- IH.
  - now exists "".
Qed.

Lemma rstrip_prefix (s : string) : exists y, s = Py.rstrip s ++ y.
Proof.
  induction s as [|c s [y IH]]; [now exists ""|].
  cbn [Py.rstrip]. destruct (Py.rstrip s) as [|d r].
  - destruct (Py.isspace c).
    + now exists (String c s).
    + exists s. reflexivity.
  - exists y. cbn [append] in IH |- *. now rewrite <- IH.
Qed.

Lemma contains_strip (sub s : string) :
  Py.contains sub (Py.strip s) = true -> Py.contains sub s = true.
Proof.
  unfold Py.strip. intros Hc.
  destruct (rstrip_prefix (Py.lstrip s)) as [y Hy].
  destruct (lstrip_suffix s) as [x Hx].
  rewrite Hx. apply contains_app_r. rewrite Hy. now apply contains_app_l.
Qed.

(** X11. Every atomic command that [execute_command] hands to a handler is
    non-empty, carries no whitespace at either end (so the handlers' own
    [strip()] changes nothing) and contains no [&&]. *)
Theorem atomic_commands_are_trimmed (command : string) :
  Forall (fun cmd => cmd <> "" /\ Py.strip cmd = cmd /\ Py.contains "&&" cmd = false)
         (atomic_commands command).
Proof.
  apply Forall_forall. intros cmd Hin. unfold atomic_commands in Hin.
  apply in_map_iff in Hin as (piece & <- & Hin).
  apply filter_In in Hin as [Hin Ht].
  split; [intros E; rewrite E in Ht; discriminate|].
  split; [apply strip_idempotent|].
  pose proof (split_pieces_clean "&&" command ltac:(discriminate)) as Hclean.
  rewrite Forall_forall in Hclean. specialize (Hclean _ Hin).
  destruct (Py.contains "&&" (Py.strip piece)) eqn:E; [|reflexivity].
  apply contains_strip in E. congruence.
Qed.

(** * Composition of compound commands *)

Lemma slice_from_zero (s : string) : Py.slice_from 0 s = s.
Proof. destruct s; reflexivity. Qed.

Lemma prefix_app_long (sep a z : string) :
  String.length sep <= String.length a ->
  String.prefix sep (a ++ z) = String.prefix sep a.
Proof.
  revert a. induction sep as [|h t IH]; intros a Hlen.
  - now rewrite !prefix_empty.
  - destruct a as [|d a]; [simpl in Hlen; lia|].
    cbn [append]. rewrite !prefix_cons. rewrite IH; [reflexivity|].
    simpl in Hlen. lia.
Qed.

(** The leftmost cut of a text is still the leftmost cut when more text
    follows. *)
Lemma cut_app_some (sep a x y z : string) :
  Py.cut sep a = Some (x, y) -> Py.cut sep (a ++ z) = Some (x, y ++ z).
Proof.
  revert x. induction a as [|c a IH]; intros x; rewrite cut_unfold.
  - destruct (String.prefix sep "") eqn:E; [|discriminate].
    destruct sep; [|discriminate]. intros [= <- <-].
    rewrite cut_unfold, prefix_empty. cbn [String.length append].
    now rewrite slice_from_zero.
  - destruct (String.prefix sep (String c a)) eqn:E.
    + intros [= <- <-]. rewrite cut_unfold, (prefix_app_r _ _ z E).
      f_equal. f_equal. apply prefix_slice in E.
      rewrite <- E at 1. rewrite app_assoc_str. now rewrite slice_from_app.
    + destruct (Py.cut sep a) as [[a' b']|] eqn:Ec; [|discriminate].
      intros [= <- <-]. rewrite cut_unfold.
      assert (Hlen : String.length sep <= String.length (String c a)).
      { apply cut_some in Ec. rewrite Ec. cbn [String.length].
        rewrite !length_app_str. lia. }
      rewrite (prefix_app_long _ _ z Hlen), E. cbn [append].
      now rewrite (IH _ eq_refl).
Qed.

Lemma ends_with_char_app (c : ascii) (p y : string) :
  y <> "" -> ends_with_char c (p ++ y) = ends_with_char c y.
Proof.
  intros Hy. induction p as [|d p IH]; [reflexivity|].
  cbn [append ends_with_char]. rewrite IH.
  destruct (p ++ y) eqn:E; [|reflexivity].
  destruct p; [cbn in E; congruence | discriminate].
Qed.

Lemma ends_with_char_sep (x : string) : ends_with_char "&" (x ++ "&&") = true.
Proof. rewrite ends_with_char_app by discriminate. reflexivity. Qed.

(** A text without [&&] that does not end in [&] is cut exactly where an
    appended [&&] starts. *)
Lemma cut_amp_none_app (a b : string) :
  Py.cut "&&" a = None -> ends_with_char "&" a = false ->
  Py.cut "&&" (a ++ "&&" ++ b) = Some (a, b).
Proof.
  induction a as [|c a IH].
  - intros _ _. rewrite cut_unfold. change ("" ++ "&&" ++ b) with ("&&" ++ b).
    rewrite prefix_app. now rewrite slice_from_app.
  - rewrite cut_unfold.
    destruct (String.prefix "&&" (String c a)) eqn:E; [discriminate|].
    destruct (Py.cut "&&" a) as [[x y]|] eqn:Ec; [discriminate|].
    intros _ Hend. rewrite cut_unfold.
    change (String c a ++ "&&" ++ b) with (String c (a ++ "&&" ++ b)).
    assert (Hp : String.prefix "&&" (String c (a ++ "&&" ++ b)) = false).
    { rewrite prefix_cons in E |- *.
      destruct (Ascii.eqb "&" c) eqn:Hc; [|reflexivity]. cbn [andb] in E |- *.
      destruct a as [|d a].
      - apply Ascii.eqb_eq in Hc. subst c. discriminate Hend.
      - change (String d a ++ "&&" ++ b) with (String d (a ++ "&&" ++ b)).
        rewrite prefix_cons in E |- *.
        rewrite prefix_empty, andb_true_r in E. now rewrite E. }
    rewrite Hp.
    rewrite IH; [reflexivity | reflexivity |].
    destruct a as [|d a]; [reflexivity | exact Hend].
Qed.

Lemma split_amp_app (a b : string) :
  ends_with_char "&" a = false ->
  Py.split "&&" (a ++ "&&" ++ b) = (Py.split "&&" a ++ Py.split "&&" b)%list.
Proof.
  assert (G : forall n a, String.length a <= n -> ends_with_char "&" a = false ->
            Py.split "&&" (a ++ "&&" ++ b) = (Py.split "&&" a ++ Py.split "&&" b)%list).
  { induction n as [|n IH]; intros t Hlen Hend;
      rewrite (split_unfold "&&" (t ++ "&&" ++ b)) by discriminate;
      rewrite (split_unfold "&&" t) by discriminate.
    - destruct t; [|simpl in Hlen; lia].
      rewrite (cut_amp_none_app "" b eq_refl eq_refl). reflexivity.
    - destruct (Py.cut "&&" t) as [[x y]|] eqn:Ec.
      + rewrite (cut_app_some _ _ _ _ ("&&" ++ b) Ec). cbn [app]. f_equal.
        pose proof (cut_shorter "&&" t x y ltac:(discriminate) Ec) as Hlt.
        apply cut_some in Ec.
        assert (Hy : y <> "").
        { intros ->. subst t. rewrite ends_with_char_sep in Hend. discriminate. }
        apply IH; [lia|].
        subst t. rewrite <- app_assoc_str in Hend.
        now rewrite ends_with_char_app in Hend.
      + now rewrite cut_amp_none_app. }
  intros Hend. now apply (G (String.length a)).
Qed.

Lemma atomic_commands_app (a b : string) :
  ends_with_char "&" a = false ->
  atomic_commands (a ++ "&&" ++ b) = (atomic_commands a ++ atomic_commands b)%list.
Proof.
  intros Hend. unfold atomic_commands.
  now rewrite (split_amp_app _ _ Hend), filter_app, map_app.
Qed.

Section Composition.

Context {R : Type} `{RemoteExecutor R}.

Lemma execute_command_returns (command : string) (m m' : Machine R) (out : string) :
  execute_command command m = (Ok out, m') <->
  exists results,
    runs (atomic_commands command) m results m' /\ out = Py.join newline results.
Proof.
  unfold execute_command, bind, ret.
  destruct (run_commands (atomic_commands command) [] m) as [[results|e] m1] eqn:Er.
  - apply run_commands_runs in Er. destruct Er as (rs & Hr & ->). cbn [app]. split.
    + intros [= <- <-]. eauto.
    + intros (rs' & Hr' & ->).
      assert (Er' : run_commands (atomic_commands command) [] m = (Ok rs', m'))
        by (apply run_commands_runs; eauto).
      assert (Er2 : run_commands (atomic_commands command) [] m = (Ok rs, m1))
        by (apply run_commands_runs; eauto).
      congruence.
  - split; [discriminate|]. intros (rs' & Hr' & _).
    assert (Er' : run_commands (atomic_commands command) [] m = (Ok rs', m'))
      by (apply run_commands_runs; eauto).
    congruence.
Qed.

End Composition.

(** X12. Chaining composes.  If [a] does not end in [&], the atomic
    commands of [a && b] are those of [a] followed by those of [b]; and if
    [execute_command a] returns from machine [m] leaving [m1] and
    [execute_command b] returns from [m1] leaving [m2], then
    [execute_command] of [a && b] from [m] leaves [m2] and returns the
    results of both, in order, joined by line ends. *)
Theorem execute_command_composes
    {R : Type} `{RemoteExecutor R} (a b : string) (m m1 m2 : Machine R)
    (out_a out_b : string) :
  ends_with_char "&" a = false ->
  execute_command a m = (Ok out_a, m1) ->
  execute_command b m1 = (Ok out_b, m2) ->
  atomic_commands (a ++ "&&" ++ b) = (atomic_commands a ++ atomic_commands b)%list
  /\ exists results_a results_b,
      out_a = Py.join newline results_a
      /\ out_b = Py.join newline results_b
      /\ List.length results_a = List.length (atomic_commands a)
      /\ List.length results_b = List.length (atomic_commands b)
      /\ execute_command (a ++ "&&" ++ b) m
         = (Ok (Py.join newline (results_a ++ results_b)), m2).
Proof.
  intros Hend Ha Hb. split; [now apply atomic_commands_app|].
  apply execute_command_returns in Ha as (results_a & Hra & ->).
  apply execute_command_returns in Hb as (results_b & Hrb & ->).
  exists results_a, results_b. split; [reflexivity|]. split; [reflexivity|].
  split; [eapply runs_length; eassumption|].
  split; [eapply runs_length; eassumption|].
  apply execute_command_returns. exists (results_a ++ results_b)%list.
  split; [|reflexivity]. rewrite (atomic_commands_app _ _ Hend).
  eapply runs_app; eassumption.
Qed.

Lemma execute_command_composes_witness :
  atomic_commands ("A=1 " ++ "&&" ++ " ls") = ["A=1"; "ls"]
  /\ exists results_a results_b,
      "Set environment variable A=1" = Py.join newline results_a
      /\ ("a.txt" ++ newline) = Py.join newline results_b
      /\ List.length results_a = 1
      /\ List.length results_b = 1
      /\ execute_command ("A=1 " ++ "&&" ++ " ls")
           (machine_at default_session
              {| submissions := [Ok "c-1"; Ok "c-2"];
                 invocations := [invocation "Success" "";
                                 invocation "Success" ("a.txt" ++ newline);
                                 invocation "Success" ("a.txt" ++ newline)] |})
         = (Ok (Py.join newline (results_a ++ results_b)),
            snd (execute_command "A=1 && ls"
                   (machine_at default_session
                      {| submissions := [Ok "c-1"; Ok "c-2"];
                         invocations := [invocation "Success" "";
                                         invocation "Success" ("a.txt" ++ newline);
                                         invocation "Success" ("a.txt" ++ newline)] |}))).
Proof.
  pose (m := machine_at default_session
               {| submissions := [Ok "c-1"; Ok "c-2"];
                  invocations := [invocation "Success" "";
                                  invocation "Success" ("a.txt" ++ newline);
                                  invocation "Success" ("a.txt" ++ newline)] |}).
  exact (execute_command_composes (H := scripted_remote) "A=1 " " ls" m
           (snd (execute_command "A=1 " m))
           (snd (execute_command " ls" (snd (execute_command "A=1 " m))))
           "Set environment variable A=1" ("a.txt" ++ newline)
           eq_refl eq_refl eq_refl).
Defined.

(** * Assignments and the other variables *)

Lemma dict_set_keys (k v : string) (d : list (string * string)) :
  map fst (dict_set k v d)
  = if existsb (String.eqb k) (map fst d) then map fst d else (map fst d ++ [k])%list.
Proof.
  induction d as [|[k0 v0] d IH]; [reflexivity|].
  cbn [dict_set map fst existsb].
  rewrite (String.eqb_sym k k0).
  destruct (String.eqb k0 k) eqn:E; cbn [map fst orb].
  - apply String.eqb_eq in E. now subst k0.
  - rewrite IH. now destruct (existsb (String.eqb k) (map fst d)).
Qed.

(** X13. Assigning a variable does not disturb the others.  After
    [_handle_env_var_setting] on [name=value], whatever the service does,
    [name] holds [value], every other name holds what it held, and the names
    keep their order: a name already tracked keeps its place, a new one goes
    last. *)
Theorem assignment_keeps_other_variables
    {R : Type} `{RemoteExecutor R} (command name value : string) (m : Machine R) :
  Py.cut "=" (Py.strip command) = Some (name, value) ->
  dict_get name (environment_vars (self (snd (_handle_env_var_setting command m))))
  = Some value
  /\ (forall k, k <> name ->
        dict_get k (environment_vars (self (snd (_handle_env_var_setting command m))))
        = dict_get k (environment_vars (self m)))
  /\ map fst (environment_vars (self (snd (_handle_env_var_setting command m))))
     = if existsb (String.eqb name) (map fst (environment_vars (self m)))
       then map fst (environment_vars (self m))
       else (map fst (environment_vars (self m)) ++ [name])%list.
Proof.
  intros Hcut.
  destruct (_handle_env_var_setting command m) as [r m'] eqn:Erun.
  destruct (handle_env_effect _ _ _ _ _ _ Hcut Erun)
    as (later & msg & _ & _ & _ & _ & Henv & _).
  cbn [snd]. rewrite Henv. split; [apply dict_get_set|].
  split; [intros k Hk; now apply dict_get_set_other | apply dict_set_keys].
Qed.

Lemma assignment_keeps_other_variables_witness :
  dict_get "A"
    (environment_vars
       (self (snd (_handle_env_var_setting "A=2"
                     (machine_at {| current_directory := "/tmp";
                                    environment_vars := [("A", "1"); ("B", "x")];
                                    command_history := [] |}
                                 {| submissions := []; invocations := [] |})))))
  = Some "2"
  /\ dict_get "B"
       (environment_vars
          (self (snd (_handle_env_var_setting "A=2"
                        (machine_at {| current_directory := "/tmp";
                                       environment_vars := [("A", "1"); ("B", "x")];
                                       command_history := [] |}
                                    {| submissions := []; invocations := [] |})))))
     = Some "x".
Proof.
  destruct (assignment_keeps_other_variables (H := scripted_remote) "A=2" "A" "2"
              (machine_at {| current_directory := "/tmp";
                             environment_vars := [("A", "1"); ("B", "x")];
                             command_history := [] |}
                          {| submissions := []; invocations := [] |})
              eq_refl) as (Hset & Hother & _).
  split; [exact Hset|]. exact (Hother "B" ltac:(discriminate)).
Defined.

(** * The branch for a bare [cd] *)

Lemma rstrip_empty_blank (s : string) : Py.rstrip s = "" -> blank s = true.
Proof.
  induction s as [|c s IH]; [reflexivity|].
  cbn [Py.rstrip blank]. destruct (Py.rstrip s) as [|d r]; [|discriminate].
  destruct (Py.isspace c); [|discriminate]. intros _. now rewrite IH.
Qed.

Lemma lstrip_blank_inv (s : string) : blank (Py.lstrip s) = true -> blank s = true.
Proof.
  induction s as [|c s IH]; [reflexivity|].
  cbn [Py.lstrip blank]. destruct (Py.isspace c) eqn:Hc; [exact IH|].
  cbn [blank]. now rewrite Hc.
Qed.

Lemma strip_empty_blank (s : string) : Py.strip s = "" -> blank s = true.
Proof.
  unfold Py.strip. intros E. apply lstrip_blank_inv. now apply rstrip_empty_blank.
Qed.

Lemma rstrip_app_blank (p t : string) :
  blank t = true -> Py.rstrip (p ++ t) = Py.rstrip p.
Proof.
  intros Ht. assert (Hb : Py.rstrip t = "").
  { induction t as [|c t IH]; [reflexivity|].
    cbn [blank] in Ht. apply andb_true_iff in Ht as [Hc Ht].
    cbn [Py.rstrip]. now rewrite (IH Ht), Hc. }
  induction p as [|c p IH]; [exact Hb|].
  cbn [append Py.rstrip]. now rewrite IH.
Qed.

Lemma rstrip_length (s : string) : String.length (Py.rstrip s) <= String.length s.
Proof.
  destruct (rstrip_prefix s) as [y Hy]. rewrite Hy at 2. rewrite length_app_str. lia.
Qed.

Lemma strip_length (s : string) : String.length (Py.strip s) <= String.length s.
Proof.
  unfold Py.strip. destruct (lstrip_suffix s) as [x Hx].
  pose proof (rstrip_length (Py.lstrip s)). rewrite Hx at 2.
  rewrite length_app_str. lia.
Qed.

(** A trimmed text has no blank tail. *)
Lemma trimmed_tail_not_blank (p t : string) :
  Py.strip (p ++ t) = p ++ t -> t <> "" -> blank t = false.
Proof.
  intros Hfix Ht. destruct (blank t) eqn:Hb; [exfalso | reflexivity].
  assert (Hr : Py.rstrip (p ++ t) = p ++ t).
  { rewrite <- Hfix at 1. unfold Py.strip. now rewrite rstrip_idempotent. }
  rewrite (rstrip_app_blank _ _ Hb) in Hr.
  pose proof (rstrip_length p) as Hlen. rewrite Hr, length_app_str in Hlen.
  destruct t; [congruence | simpl in Hlen; lia].
Qed.

Lemma atomic_commands_are_trimmed_in (command cmd : string) :
  In cmd (atomic_commands command) ->
  cmd <> "" /\ Py.strip cmd = cmd /\ Py.contains "&&" cmd = false.
Proof.
  intros Hin. unfold atomic_commands in Hin.
  apply in_map_iff in Hin as (piece & <- & Hin).
  apply filter_In in Hin as [Hin Ht].
  split; [intros E; rewrite E in Ht; discriminate|].
  split; [apply strip_idempotent|].
  pose proof (split_pieces_clean "&&" command ltac:(discriminate)) as Hclean.
  rewrite Forall_forall in Hclean. specialize (Hclean _ Hin).
  destruct (Py.contains "&&" (Py.strip piece)) eqn:E; [|reflexivity].
  apply contains_strip in E. congruence.
Qed.

(** X14. The branch of [_handle_cd_command] for a bare [cd] cannot be
    reached through [execute_command]: for every atomic command of an input
    that is classified as a directory change, the path argument is not
    empty, so the probe is never the home probe [cd && pwd]. *)
Theorem home_probe_is_unreachable (command cmd cwd : string) :
  In cmd (atomic_commands command) ->
  classify cmd = DirectoryChange ->
  cd_dir_path cmd <> "" /\ cd_check_cmd cwd cmd <> "cd && pwd".
Proof.
  intros Hin Hk.
  pose proof (atomic_commands_are_trimmed_in command cmd Hin) as (_ & Hfix & _).
  assert (Hcd : Py.startswith cmd "cd " = true).
  { unfold classify in Hk. destruct (Py.startswith cmd "cd "); [reflexivity|].
    destruct (_ && _); discriminate. }
  apply prefix_slice in Hcd. cbn [String.length] in Hcd.
  assert (Hpath : cd_dir_path cmd <> "").
  { unfold cd_dir_path. rewrite Hfix. intros E. apply strip_empty_blank in E.
    assert (Hb : blank (" " ++ Py.slice_from 3 cmd) = true) by (cbn; exact E).
    rewrite (trimmed_tail_not_blank "cd" (" " ++ Py.slice_from 3 cmd)) in Hb;
      [discriminate | | discriminate].
    change ("cd" ++ " " ++ Py.slice_from 3 cmd) with ("cd " ++ Py.slice_from 3 cmd).
    now rewrite Hcd. }
  split; [exact Hpath|].
  unfold cd_check_cmd. destruct (cd_dir_path cmd) as [|c p]; [congruence|].
  cbn [Py.truthy negb]. destruct (Py.startswith (String c p) "/"); discriminate.
Qed.

Lemma home_probe_is_unreachable_witness :
  cd_dir_path "cd /tmp" <> ""
  /\ cd_check_cmd "/home/ec2-user" "cd /tmp" <> "cd && pwd".
Proof.
  refine (home_probe_is_unreachable "ls && cd /tmp  " "cd /tmp" "/home/ec2-user" _ eq_refl).
  right. now left.
Defined.

(** * Taking a compound command apart *)








(** * Handling the atomic commands in turn *)




Section InTurnFacts.

Context {R : Type} `{RemoteExecutor R}.






End InTurnFacts.

(** ** C6 *)


